(** * FetchXML query builder: a shallow embedding of [xml_query_builder.py]

    The development has four parts.

    - [Module ET]: the part of Python's [xml.etree.ElementTree] that the
      builder calls: the [Element] tree, [SubElement], the serializer behind
      [ET.tostring(..., encoding='unicode')], the parser behind
      [ET.fromstring] and the lookup [Element.find(".//entity")].
    - the builder itself ([XMLQueryBuilder] and its methods), as a state and
      exception monad over a store of documents; the references the Python
      object keeps ([self.root], [self.entity], [self.filter_root]) are
      references into that store, so that aliasing is the code's.
    - lemmas on the serializer and the parser (a round trip), and on the
      builder (one invariant for builders made of builder calls only).
    - the theorems on the behaviour of the builder.

    A Python [str] is a [string]; a character of the model is a code point
    below 256 (U+0000 to U+00FF).  A Python string that holds another code
    point is outside the model, and no theorem speaks of it.  The library
    is modelled as CPython 3.11 has it: [str] of an [int] of more than 4300
    digits raises [ValueError], and the
    serializer writes the attributes of a node in insertion order and
    escapes [&], [<], [>], the double quote, CR, LF and TAB in their
    values. *)

From Stdlib Require Import ZArith Lia Ascii String DecimalString.
From stdpp Require Import base option list strings.

Local Open Scope string_scope.
Local Open Scope list_scope.

#[local] Arguments String.append !_ _ / : simpl nomatch.

(** ** Characters *)

Definition DQUOTE : ascii := "034"%char.
Definition TAB : ascii := "009"%char.
Definition LF : ascii := "010"%char.
Definition CR : ascii := "013"%char.

Definition str1 (c : ascii) : string := String c EmptyString.

Module ET.

(** *** The element tree

    [attrib] is a Python [dict]: keys are distinct and iteration follows
    insertion order, which the serializer relies on.  [text] and [tail] are
    [None] unless the parser saw character data. *)
#[local] Unset Elimination Schemes.
Inductive Element : Type :=
  Elem (tag : string) (attrib : list (string * string))
       (text tail : option string) (children : list Element).
#[local] Set Elimination Schemes.

Definition tag (e : Element) : string := let 'Elem t _ _ _ _ := e in t.
Definition attrib (e : Element) : list (string * string) :=
  let 'Elem _ a _ _ _ := e in a.
Definition text (e : Element) : option string := let 'Elem _ _ x _ _ := e in x.
Definition tail (e : Element) : option string := let 'Elem _ _ _ x _ := e in x.
Definition children (e : Element) : list Element :=
  let 'Elem _ _ _ _ c := e in c.

(** [ET.Element(tag, attrib)]: a fresh element without text, tail or
    children. *)
Definition new_element (tg : string) (a : list (string * string)) : Element :=
  Elem tg a None None [].

(** [elem.append(child)]. *)
Definition append (e child : Element) : Element :=
  let 'Elem t a x y c := e in Elem t a x y (c ++ [child]).

Definition set_tail (e : Element) (tl : option string) : Element :=
  let 'Elem t a x _ c := e in Elem t a x tl c.

(** *** Serializer: [ET.tostring(root, encoding='unicode')]

    [str.replace(old, new)] for a one-character [old]. *)
Fixpoint replace (old : ascii) (new s : string) : string :=
  match s with
  | EmptyString => EmptyString
  | String c s' =>
      if Ascii.eqb c old then new +:+ replace old new s'
      else String c (replace old new s')
  end.

(** [_escape_cdata]: the replacements in the order of the library. *)
Definition _escape_cdata (t : string) : string :=
  replace ">" "&gt;" (replace "<" "&lt;" (replace "&" "&amp;" t)).

(** [_escape_attrib]: the replacements in the order of the library. *)
Definition _escape_attrib (t : string) : string :=
  replace TAB "&#09;"
    (replace LF "&#10;"
       (replace CR "&#13;"
          (replace DQUOTE "&quot;"
             (replace ">" "&gt;" (replace "<" "&lt;" (replace "&" "&amp;" t)))))).

(** [write(" %s=\"%s\"" % (k, _escape_attrib(v)))]. *)
Definition write_item (kv : string * string) : string :=
  " " +:+ kv.1 +:+ "=" +:+ String DQUOTE (_escape_attrib kv.2 +:+ str1 DQUOTE).

Fixpoint join (l : list string) : string :=
  match l with
  | [] => EmptyString
  | s :: l' => s +:+ join l'
  end.

(** [if text: write(_escape_cdata(text))]: [None] and the empty string are
    both falsy. *)
Definition truthy (o : option string) : bool :=
  match o with
  | Some (String _ _) => true
  | _ => false
  end.

Definition write_cdata (o : option string) : string :=
  match o with
  | Some t => if truthy o then _escape_cdata t else EmptyString
  | None => EmptyString
  end.

(** [_serialize_xml] for plain tags and keys ([qnames] is the identity on
    names without a namespace), with [short_empty_elements=True]. *)
Fixpoint _serialize_xml (elem : Element) : string :=
  let 'Elem tg items txt tl kids := elem in
  ("<" +:+ tg) +:+ join (List.map write_item items) +:+
  (if truthy txt || negb (bool_decide (kids = []))
   then ">" +:+ write_cdata txt +:+ join (List.map _serialize_xml kids)
            +:+ "</" +:+ tg +:+ ">"
   else " />") +:+
  write_cdata tl.

Definition tostring (root : Element) : string := _serialize_xml root.

(** *** Parser: [ET.fromstring]

    The model covers documents made of elements, attributes, character data
    and the predefined and numeric character references, with names made of
    ASCII letters, digits, [_], [-] and [.]; it has no XML declaration,
    comment, processing instruction, CDATA section, DOCTYPE or namespace,
    and reports a document that uses one as not well-formed.  On the
    documents it covers it follows XML 1.0 as expat implements it and the
    events of [TreeBuilder]. *)

Definition is_xml_char (c : ascii) : bool :=
  let n := nat_of_ascii c in
  Nat.eqb n 9 || Nat.eqb n 10 || Nat.eqb n 13 || Nat.leb 32 n.

Definition is_space (c : ascii) : bool :=
  Ascii.eqb c " " || Ascii.eqb c TAB || Ascii.eqb c LF || Ascii.eqb c CR.

Definition is_letter (c : ascii) : bool :=
  let n := nat_of_ascii c in
  (Nat.leb 65 n && Nat.leb n 90) || (Nat.leb 97 n && Nat.leb n 122).

Definition is_digit (c : ascii) : bool :=
  let n := nat_of_ascii c in Nat.leb 48 n && Nat.leb n 57.

Definition is_name_start (c : ascii) : bool := is_letter c || Ascii.eqb c "_".

Definition is_name_char (c : ascii) : bool :=
  is_letter c || is_digit c || Ascii.eqb c "_" || Ascii.eqb c "-"
  || Ascii.eqb c ".".

Fixpoint skip_ws (s : string) : string :=
  match s with
  | String c s' => if is_space c then skip_ws s' else s
  | EmptyString => EmptyString
  end.

Definition starts_with (c : ascii) (s : string) : bool :=
  match s with
  | String c' _ => Ascii.eqb c' c
  | EmptyString => false
  end.

(** Consume the character [c] or fail. *)
Definition expect (c : ascii) (s : string) : option string :=
  match s with
  | String c' s' => if Ascii.eqb c' c then Some s' else None
  | EmptyString => None
  end.

Fixpoint take_name (s : string) : string * string :=
  match s with
  | String c s' =>
      if is_name_char c
      then let '(n, r) := take_name s' in (String c n, r)
      else (EmptyString, s)
  | EmptyString => (EmptyString, EmptyString)
  end.

Definition parse_name (s : string) : option (string * string) :=
  match s with
  | String c _ => if is_name_start c then Some (take_name s) else None
  | EmptyString => None
  end.

(** Character references. *)
Definition digit_of (base : N) (c : ascii) : option N :=
  let n := N_of_ascii c in
  if is_digit c then Some (n - 48)%N
  else if N.eqb base 16 && N.leb 97 n && N.leb n 102 then Some (n - 87)%N
  else if N.eqb base 16 && N.leb 65 n && N.leb n 70 then Some (n - 55)%N
  else None.

Fixpoint digits_value (base : N) (s : string) (acc : N) : option N :=
  match s with
  | EmptyString => Some acc
  | String c s' =>
      match digit_of base c with
      | Some d => digits_value base s' (acc * base + d)%N
      | None => None
      end
  end.

Definition char_of_code (n : N) : option ascii :=
  if N.ltb n 256 && is_xml_char (ascii_of_N n) then Some (ascii_of_N n)
  else None.

(** The text between [&] and [;]. *)
Definition decode_ref (body : string) : option ascii :=
  if String.eqb body "amp" then Some "&"%char
  else if String.eqb body "lt" then Some "<"%char
  else if String.eqb body "gt" then Some ">"%char
  else if String.eqb body "quot" then Some DQUOTE
  else if String.eqb body "apos" then Some "'"%char
  else match body with
       | String "#" (String "x" (String c h)) =>
           digits_value 16 (String c h) 0 ≫= char_of_code
       | String "#" (String c d) =>
           digits_value 10 (String c d) 0 ≫= char_of_code
       | _ => None
       end.

(** An attribute value up to the closing quote [q].  [pending] is the text
    of a reference that has been opened by [&].  A literal white space
    character is normalized to a space, a CR LF pair to one. *)
Fixpoint parse_attvalue (q : ascii) (pending : option string) (s : string)
  : option (string * string) :=
  match s with
  | EmptyString => None
  | String c s' =>
      match pending with
      | Some body =>
          if Ascii.eqb c ";" then
            match decode_ref body with
            | Some d =>
                '(v, r) ← parse_attvalue q None s'; Some (String d v, r)
            | None => None
            end
          else parse_attvalue q (Some (body +:+ str1 c)) s'
      | None =>
          if Ascii.eqb c q then Some (EmptyString, s')
          else if Ascii.eqb c "<" then None
          else if Ascii.eqb c "&" then parse_attvalue q (Some EmptyString) s'
          else if negb (is_xml_char c) then None
          else if Ascii.eqb c CR && starts_with LF s'
          then parse_attvalue q None s'
          else
            '(v, r) ← parse_attvalue q None s';
            Some (String (if is_space c then " "%char else c) v, r)
      end
  end.

(** Character data up to the next [<].  Line ends are normalized to LF. *)
Fixpoint parse_chardata (pending : option string) (s : string)
  : option (string * string) :=
  match s with
  | EmptyString =>
      match pending with
      | None => Some (EmptyString, EmptyString)
      | Some _ => None
      end
  | String c s' =>
      match pending with
      | Some body =>
          if Ascii.eqb c ";" then
            match decode_ref body with
            | Some d => '(v, r) ← parse_chardata None s'; Some (String d v, r)
            | None => None
            end
          else parse_chardata (Some (body +:+ str1 c)) s'
      | None =>
          if Ascii.eqb c "<" then Some (EmptyString, s)
          else if Ascii.eqb c "&" then parse_chardata (Some EmptyString) s'
          else if negb (is_xml_char c) then None
          else if Ascii.eqb c "]" && String.prefix "]>" s' then None
          else if Ascii.eqb c CR && starts_with LF s'
          then parse_chardata None s'
          else
            '(v, r) ← parse_chardata None s';
            Some (String (if Ascii.eqb c CR then LF else c) v, r)
      end
  end.

(** The attributes of a start tag, up to [>] or [/>]. *)
Fixpoint parse_attrs (fuel : nat) (s : string)
  : option (list (string * string) * string) :=
  match fuel with
  | 0 => None
  | S f =>
      let s1 := skip_ws s in
      if starts_with "/" s1 || starts_with ">" s1 then Some ([], s1)
      else if negb (String.length s1 <? String.length s)%nat then None
      else
        '(k, s2) ← parse_name s1;
        s3 ← expect "=" (skip_ws s2);
        let s4 := skip_ws s3 in
        if starts_with DQUOTE s4 || starts_with "'" s4 then
          match s4 with
          | String q s5 =>
              '(v, s6) ← parse_attvalue q None s5;
              '(items, s7) ← parse_attrs f s6;
              if bool_decide (k ∈ items.*1) then None
              else Some ((k, v) :: items, s7)
          | EmptyString => None
          end
        else None
  end.

(** An element, and the content of an element up to its end tag; [text]
    and [tail] are set as [TreeBuilder] sets them. *)
Fixpoint parse_element (fuel : nat) (s : string) : option (Element * string) :=
  match fuel with
  | 0 => None
  | S f =>
      s0 ← expect "<" s;
      '(tg, s1) ← parse_name s0;
      '(items, s2) ← parse_attrs f s1;
      if starts_with "/" s2 then
        s3 ← expect "/" s2 ≫= expect ">";
        Some (Elem tg items None None [], s3)
      else
        s3 ← expect ">" s2;
        '(txt, kids, s4) ← parse_content f s3;
        '(tg', s5) ← parse_name s4;
        if String.eqb tg tg' then
          s6 ← expect ">" (skip_ws s5);
          Some (Elem tg items txt None kids, s6)
        else None
  end
with parse_content (fuel : nat) (s : string)
  : option (option string * list Element * string) :=
  match fuel with
  | 0 => None
  | S f =>
      '(d, s1) ← parse_chardata None s;
      let txt := if String.eqb d EmptyString then None else Some d in
      match expect "<" s1 ≫= expect "/" with
      | Some s2 => Some (txt, [], s2)
      | None =>
          '(e, s2) ← parse_element f s1;
          '(tl, es, s3) ← parse_content f s2;
          Some (txt, set_tail e tl :: es, s3)
      end
  end.

(** [ET.fromstring]: [None] stands for the exception [ParseError]. *)
Definition fromstring (s : string) : option Element :=
  '(e, r) ← parse_element (S (String.length s)) (skip_ws s);
  if String.eqb (skip_ws r) EmptyString then Some e else None.

(** *** Paths: [Element.find(".//entity")]

    A node of a tree is addressed by the indices of the children on the way
    to it. *)
Definition path := list nat.

Fixpoint get (p : path) (e : Element) : option Element :=
  match p with
  | [] => Some e
  | i :: p' => children e !! i ≫= get p'
  end.

Fixpoint alter_at (f : Element → Element) (p : path) (e : Element) : Element :=
  match p with
  | [] => f e
  | i :: p' =>
      let 'Elem t a x y c := e in Elem t a x y (alter (alter_at f p') i c)
  end.

(** [elem.find(".//" + tg)]: the first proper descendant labelled [tg], in
    document order ([elem.iter(tg)] without [elem] itself). *)
Fixpoint find_descendant (tg : string) (e : Element)
  : option (path * Element) :=
  (fix go (i : nat) (l : list Element) : option (path * Element) :=
     match l with
     | [] => None
     | k :: l' =>
         if String.eqb (tag k) tg then Some ([i], k)
         else match find_descendant tg k with
              | Some (p, d) => Some (i :: p, d)
              | None => go (S i) l'
              end
     end) 0%nat (children e).

End ET.


Import ET.

(** ** Python values and exceptions *)

(** The exceptions the code can raise.  [Dangling] is not a Python exception:
    the model raises it for a reference that resolves to no node of the
    store, which no builder made by the code holds. *)
Inductive exn : Type :=
| ParseError | ExpatError | AttributeError | KeyError | TypeError
| ValueError | Dangling.

Inductive result (A : Type) : Type :=
| Ok (a : A)
| Raise (e : exn).
Arguments Ok {A} a.
Arguments Raise {A} e.

(** The values a caller passes as the [value] of [add_filter]. *)
Inductive pyvalue : Type :=
| PyStr (s : string)
| PyInt (z : Z)
| PyBool (b : bool)
| PyNone.

(** [sys.get_int_max_str_digits()], as CPython 3.11 starts with. *)
Definition int_max_str_digits : nat := 4300.

(** [str(value)].  An [int] is written in decimal, and CPython raises
    [ValueError] instead when it has more digits, the sign not counted,
    than [int_max_str_digits]. *)
Definition py_str (v : pyvalue) : result string :=
  match v with
  | PyStr s => Ok s
  | PyInt z =>
      let s := NilZero.string_of_int (Z.to_int z) in
      let digits := (String.length s - (if Z.ltb z 0 then 1 else 0))%nat in
      if Nat.ltb int_max_str_digits digits then Raise ValueError else Ok s
  | PyBool true => Ok "True"
  | PyBool false => Ok "False"
  | PyNone => Ok "None"
  end.

(** [x if x else d] for an optional string argument: [None] and the empty
    string are falsy. *)
Definition if_else (x : option string) (d : string) : string :=
  match x with
  | Some s => if truthy x then s else d
  | None => d
  end.

(** [d[k]] on a [dict]. *)
Fixpoint getitem (k : string) (d : list (string * string)) : option string :=
  match d with
  | [] => None
  | (k', v) :: d' => if String.eqb k' k then Some v else getitem k d'
  end.

(** ** The store and the builder object

    Every [ET.Element(...)] and every [ET.fromstring(...)] makes a new
    document in the store; a reference names a document and a node in it.
    Nodes are only ever appended, so a path keeps its meaning. *)
Record ref : Type := Ref { ref_doc : nat; ref_path : path }.

Definition get_ref (st : list Element) (r : ref) : option Element :=
  st !! ref_doc r ≫= get (ref_path r).

Definition alter_ref (f : Element → Element) (r : ref) (st : list Element)
  : list Element :=
  alter (alter_at f (ref_path r)) (ref_doc r) st.

(** The fields of the Python object.  [filter_root] is [None] while the
    attribute is not set; [entity] is [None] when it holds Python's [None]. *)
Record XMLQueryBuilder : Type := mkBuilder {
  store : list Element;
  root_entity_name : string;
  root : ref;
  entity : option ref;
  filter_root : option ref;
  select_attributes : list string;
  filters : list ref;
  linked_entities : list ref;
  orders : list ref;
  aggregates : list ref
}.

Definition set_store (x : list Element) (b : XMLQueryBuilder) :=
  mkBuilder x (root_entity_name b) (root b) (entity b) (filter_root b)
    (select_attributes b) (filters b) (linked_entities b) (orders b)
    (aggregates b).
Definition set_root (x : ref) (b : XMLQueryBuilder) :=
  mkBuilder (store b) (root_entity_name b) x (entity b) (filter_root b)
    (select_attributes b) (filters b) (linked_entities b) (orders b)
    (aggregates b).
Definition set_entity (x : option ref) (b : XMLQueryBuilder) :=
  mkBuilder (store b) (root_entity_name b) (root b) x (filter_root b)
    (select_attributes b) (filters b) (linked_entities b) (orders b)
    (aggregates b).
Definition set_filter_root (x : option ref) (b : XMLQueryBuilder) :=
  mkBuilder (store b) (root_entity_name b) (root b) (entity b) x
    (select_attributes b) (filters b) (linked_entities b) (orders b)
    (aggregates b).
Definition set_select_attributes (x : list string) (b : XMLQueryBuilder) :=
  mkBuilder (store b) (root_entity_name b) (root b) (entity b) (filter_root b)
    x (filters b) (linked_entities b) (orders b) (aggregates b).
Definition set_filters (x : list ref) (b : XMLQueryBuilder) :=
  mkBuilder (store b) (root_entity_name b) (root b) (entity b) (filter_root b)
    (select_attributes b) x (linked_entities b) (orders b) (aggregates b).
Definition set_linked_entities (x : list ref) (b : XMLQueryBuilder) :=
  mkBuilder (store b) (root_entity_name b) (root b) (entity b) (filter_root b)
    (select_attributes b) (filters b) x (orders b) (aggregates b).
Definition set_orders (x : list ref) (b : XMLQueryBuilder) :=
  mkBuilder (store b) (root_entity_name b) (root b) (entity b) (filter_root b)
    (select_attributes b) (filters b) (linked_entities b) x (aggregates b).
Definition set_aggregates (x : list ref) (b : XMLQueryBuilder) :=
  mkBuilder (store b) (root_entity_name b) (root b) (entity b) (filter_root b)
    (select_attributes b) (filters b) (linked_entities b) (orders b) x.

(** ** The monad of the methods: state and exceptions

    A method runs on the object and returns a value or raises; what it did
    to the object before raising stays done. *)
Definition M (A : Type) : Type := XMLQueryBuilder → result A * XMLQueryBuilder.

Definition ret {A} (a : A) : M A := λ b, (Ok a, b).
Definition raise {A} (e : exn) : M A := λ b, (Raise e, b).
Definition bind {A B} (m : M A) (k : A → M B) : M B :=
  λ b, match m b with
       | (Ok a, b') => k a b'
       | (Raise e, b') => (Raise e, b')
       end.
Definition gets {A} (f : XMLQueryBuilder → A) : M A := λ b, (Ok (f b), b).
(** A computation that does not touch the object. *)
Definition eval {A} (r : result A) : M A := λ b, (r, b).
Definition modify (f : XMLQueryBuilder → XMLQueryBuilder) : M unit :=
  λ b, (Ok tt, f b).

#[global] Instance M_ret : MRet M := @ret.
#[global] Instance M_bind : MBind M := λ A B k m, bind m k.

(** [for x in l: body(x)]. *)
Fixpoint for_each {A} (l : list A) (body : A → M unit) : M unit :=
  match l with
  | [] => ret tt
  | x :: l' => body x;; for_each l' body
  end.

(** What [return self] returns. *)
Inductive Self : Type := self.

(** [ET.SubElement(parent, tag, attrib)]: a new element appended to the
    children of [parent]; [TypeError] when [parent] is [None]. *)
Definition SubElement (parent : option ref) (tg : string)
    (a : list (string * string)) : M ref :=
  match parent with
  | None => raise TypeError
  | Some r =>
      st ← gets store;
      match get_ref st r with
      | None => raise Dangling
      | Some node =>
          modify (set_store (alter_ref (λ e, append e (new_element tg a)) r st));;
          ret (Ref (ref_doc r) (ref_path r ++ [length (children node)]))
      end
  end.

(** [elem.find(".//" + tg)] through a reference. *)
Definition find (r : ref) (tg : string) : M (option ref) :=
  st ← gets store;
  match get_ref st r with
  | None => raise Dangling
  | Some e =>
      ret ((λ pe : path * Element, Ref (ref_doc r) (ref_path r ++ pe.1))
             <$> find_descendant tg e)
  end.

(** ** The methods of [XMLQueryBuilder] *)

(** [XMLQueryBuilder(root_entity)]: the object [__init__] leaves. *)
Definition __init__ (root_entity : string) : XMLQueryBuilder :=
  {| store := [append (new_element "fetch" [])
                 (new_element "entity" [("name", root_entity)])];
     root_entity_name := root_entity;
     root := Ref 0 [];
     entity := Some (Ref 0 [0%nat]);
     filter_root := None;
     select_attributes := [];
     filters := [];
     linked_entities := [];
     orders := [];
     aggregates := [] |}.

Definition select (attributes : list string) : M Self :=
  (if bool_decide (attributes = ["ALL"]) then
     e ← gets entity;
     SubElement e "all-attributes" [];;
     ret tt
   else
     for_each attributes (λ attr,
       e ← gets entity;
       SubElement e "attribute" [("name", attr)];;
       modify (λ b,
         set_select_attributes (select_attributes b ++ attributes) b)));;
  ret self.

Definition link_entity (name : string)
    (alias from_field to_field link_type : option string) : M Self :=
  e ← gets entity;
  link ← SubElement e "link-entity"
    [("name", name);
     ("alias", if_else alias name);
     ("from", if_else from_field (name +:+ "id"));
     ("to", if_else to_field (name +:+ "id"));
     ("link-type", if_else link_type "inner")];
  modify (λ b, set_linked_entities (linked_entities b ++ [link]) b);;
  ret self.

(** Reading [self.filter_root]: [AttributeError] while it is not set. *)
Definition get_filter_root : M ref :=
  fr ← gets filter_root;
  match fr with
  | Some r => ret r
  | None => raise AttributeError
  end.

(** The arguments of the last [SubElement] are evaluated in order:
    [self.filter_root] is read, then the dictionary is built, and
    [str(value)] may raise there, after the filter node was made. *)
Definition add_filter (attribute operator : string) (value : pyvalue)
  : M Self :=
  fs ← gets filters;
  (if bool_decide (fs = []) then
     e ← gets entity;
     f ← SubElement e "filter" [("type", "and")];
     modify (set_filter_root (Some f));;
     fr ← get_filter_root;
     modify (λ b, set_filters (filters b ++ [fr]) b)
   else ret tt);;
  fr ← get_filter_root;
  v ← eval (py_str value);
  SubElement (Some fr) "condition"
    [("attribute", attribute); ("operator", operator); ("value", v)];;
  ret self.

Definition add_order (attribute : string) (descending : bool) : M Self :=
  e ← gets entity;
  order ← SubElement e "order"
    [("attribute", attribute);
     ("descending", if descending then "true" else "false")];
  modify (λ b, set_orders (orders b ++ [order]) b);;
  ret self.

Definition add_aggregate (attribute alias aggregate_type : string) : M Self :=
  e ← gets entity;
  aggregate ← SubElement e "attribute"
    [("name", attribute); ("alias", alias); ("aggregate", aggregate_type)];
  modify (λ b, set_aggregates (aggregates b ++ [aggregate]) b);;
  ret self.

Definition add_group_by (attributes : list string) : M Self :=
  for_each attributes (λ attr,
    e ← gets entity;
    SubElement e "attribute" [("name", attr); ("groupby", "true")];;
    ret tt);;
  ret self.

Section Library.

(** The two library calls that read XML text are parameters of the builder:
    [fromstring] is [ET.fromstring], with [None] for [ParseError];
    [toprettyxml] is [xml.dom.minidom.parseString(s).toprettyxml()], with
    [None] for the [ExpatError] of [parseString]. *)
Variable fromstring : string → option Element.
Variable toprettyxml : string → option string.

Definition add_fetch_xml (fetch_xml_string : string) : M Self :=
  match fromstring fetch_xml_string with
  | None => raise ParseError
  | Some t =>
      st ← gets store;
      modify (set_store (st ++ [t]));;
      let fetch_xml_root := Ref (length st) [] in
      modify (set_root fetch_xml_root);;
      e ← find fetch_xml_root "entity";
      modify (set_entity e);;
      ret self
  end.

Definition to_string (pretty : bool) : M string :=
  r ← gets root;
  st ← gets store;
  match get_ref st r with
  | None => raise Dangling
  | Some e =>
      let xml_str := tostring e in
      if pretty then
        match toprettyxml xml_str with
        | Some s => ret s
        | None => raise ExpatError
        end
      else ret xml_str
  end.

(** The class method: it returns a builder or raises. *)
Definition from_fetch_xml (fetch_xml_string : string)
  : result XMLQueryBuilder :=
  match fromstring fetch_xml_string with
  | None => Raise ParseError
  | Some fetch_xml_root =>
      match find_descendant "entity" fetch_xml_root with
      | None => Raise AttributeError
      | Some (_, e) =>
          match getitem "name" (attrib e) with
          | None => Raise KeyError
          | Some entity_name =>
              let query_builder := __init__ entity_name in
              match add_fetch_xml fetch_xml_string query_builder with
              | (Ok _, b) => Ok b
              | (Raise x, _) => Raise x
              end
          end
      end
  end.

End Library.

(** ** Chains of builder calls *)

Inductive call : Type :=
| Select (attributes : list string)
| LinkEntity (name : string) (alias from_field to_field link_type : option string)
| AddFilter (attribute operator : string) (value : pyvalue)
| AddOrder (attribute : string) (descending : bool)
| AddAggregate (attribute alias aggregate_type : string)
| AddGroupBy (attributes : list string).

Definition do_call (c : call) : M Self :=
  match c with
  | Select l => select l
  | LinkEntity n a f t k => link_entity n a f t k
  | AddFilter a o v => add_filter a o v
  | AddOrder a d => add_order a d
  | AddAggregate a al ty => add_aggregate a al ty
  | AddGroupBy l => add_group_by l
  end.

(** [b.c1(...).c2(...)...]: the calls in turn, each on the object the one
    before returned. *)
Fixpoint chain (cs : list call) : M Self :=
  match cs with
  | [] => ret self
  | c :: cs' => do_call c;; chain cs'
  end.

(** What an observer of the builder sees. *)
Definition root_node (b : XMLQueryBuilder) : option Element :=
  get_ref (store b) (root b).

Definition entity_node (b : XMLQueryBuilder) : option Element :=
  entity b ≫= get_ref (store b).

(** ** Induction on trees *)

Section ElementInduction.

Variable P : Element → Prop.
Hypothesis Hnode :
  ∀ t a x y c, Forall P c → P (Elem t a x y c).

(** Induction on trees: the children of a node satisfy the property. *)
Fixpoint Element_ind (e : Element) : P e :=
  let 'Elem t a x y c := e in
  Hnode t a x y c
    ((fix go (l : list Element) : Forall P l :=
        match l with
        | [] => @List.Forall_nil _ P
        | k :: l' => @List.Forall_cons _ P k l' (Element_ind k) (go l')
        end) c).

End ElementInduction.

(** ** Notions the statements use *)

(** Some descendant-or-self of [e] is labelled [tg]. *)
Fixpoint has_tag (tg : string) (e : Element) : bool :=
  String.eqb (tag e) tg || existsb (has_tag tg) (children e).

Fixpoint all_chars (p : ascii → bool) (s : string) : bool :=
  match s with
  | EmptyString => true
  | String c s' => p c && all_chars p s'
  end.

(** Every character of [s] is one that XML 1.0 allows, among the code
    points below 256 that the model has: U+0009, U+000A, U+000D and
    U+0020 to U+00FF (U+007F to U+009F included).  The other code points
    below U+0020 are not allowed.  Of the code points above U+00FF, which
    a Python string can hold and the model cannot, XML 1.0 refuses U+FFFE,
    U+FFFF and the surrogates. *)
Definition xml_safe (s : string) : bool := all_chars is_xml_char s.

Definition opt_safe (o : option string) : bool :=
  match o with
  | Some s => xml_safe s
  | None => true
  end.

(** The call returns on a builder that has an entity node: the value of an
    [add_filter] has a [str]. *)
Definition call_returns (c : call) : bool :=
  match c with
  | AddFilter _ _ v => match py_str v with Ok _ => true | Raise _ => false end
  | _ => true
  end.

(** What a call gives on a builder that has an entity node. *)
Definition outcome (c : call) : result Self :=
  match c with
  | AddFilter _ _ v =>
      match py_str v with Ok _ => Ok self | Raise e => Raise e end
  | _ => Ok self
  end.

(** The strings a call writes into the tree are [xml_safe]; the value of an
    [add_filter] has a [str], which is. *)
Definition call_safe (c : call) : bool :=
  match c with
  | Select l => forallb xml_safe l
  | LinkEntity n a f t k =>
      xml_safe n && opt_safe a && opt_safe f && opt_safe t && opt_safe k
  | AddFilter a o v =>
      xml_safe a && xml_safe o
      && match py_str v with Ok s => xml_safe s | Raise _ => false end
  | AddOrder a _ => xml_safe a
  | AddAggregate a al ty => xml_safe a && xml_safe al && xml_safe ty
  | AddGroupBy l => forallb xml_safe l
  end.

(** The [condition] node of an [add_filter] call whose value has the text
    [value]; the node one [add_filter] call appends, none when [str(value)]
    raises; and those of the [add_filter] calls of a chain, in call order. *)
Definition condition_node (attribute operator value : string) : Element :=
  Elem "condition"
    [("attribute", attribute); ("operator", operator); ("value", value)]
    None None [].

Definition condition_of (attribute operator : string) (value : pyvalue)
  : list Element :=
  match py_str value with
  | Ok s => [condition_node attribute operator s]
  | Raise _ => []
  end.

Fixpoint conditions_of (cs : list call) : list Element :=
  match cs with
  | [] => []
  | AddFilter a o v :: cs' => condition_of a o v ++ conditions_of cs'
  | _ :: cs' => conditions_of cs'
  end.


(** The children of [e] labelled [tg], in order. *)
Definition children_tagged (tg : string) (e : Element) : list Element :=
  List.filter (λ k, String.eqb (tag k) tg) (children e).

(** The object after [SubElement(r, tg, a)]. *)
Definition with_child (b : XMLQueryBuilder) (r : ref) (tg : string)
    (a : list (string * string)) : XMLQueryBuilder :=
  set_store (alter_ref (λ x, append x (new_element tg a)) r (store b)) b.

(** A name the parser reads back as it is written. *)
Definition valid_name (n : string) : bool :=
  match n with
  | String c _ => is_name_start c && all_chars is_name_char n
  | EmptyString => false
  end.

Fixpoint distinct (l : list string) : bool :=
  match l with
  | [] => true
  | k :: l' => negb (bool_decide (k ∈ l')) && distinct l'
  end.

Definition wf_item (kv : string * string) : bool :=
  valid_name kv.1 && xml_safe kv.2.

Definition is_None {A} (o : option A) : bool :=
  match o with
  | None => true
  | Some _ => false
  end.

(** The trees the builder makes: names are valid, the keys of a node are
    distinct, the values are [xml_safe], and no node has text or tail. *)
Fixpoint wf_elem (e : Element) : bool :=
  let 'Elem tg items txt tl kids := e in
  valid_name tg && forallb wf_item items && distinct items.*1
  && is_None txt && is_None tl && forallb wf_elem kids.

(** Fuel that is enough to parse the text of a tree. *)
Fixpoint size (e : Element) : nat :=
  let 'Elem _ items _ _ kids := e in
  2 + length items + list_sum (List.map size kids).

(** What [_escape_attrib] writes for one character. *)
Definition escape_attrib_char (c : ascii) : string :=
  if Ascii.eqb c "&" then "&amp;"
  else if Ascii.eqb c "<" then "&lt;"
  else if Ascii.eqb c ">" then "&gt;"
  else if Ascii.eqb c DQUOTE then "&quot;"
  else if Ascii.eqb c CR then "&#13;"
  else if Ascii.eqb c LF then "&#10;"
  else if Ascii.eqb c TAB then "&#09;"
  else str1 c.

(** ** The tree of a builder made of builder calls

    What the calls of a chain do to the children of the entity node, as a
    function.  [appended c] are the nodes a call other than [add_filter]
    appends; [step] also carries the index of the filter node among the
    children of the entity node, once it exists.  The first [add_filter]
    makes the filter node also when [str(value)] raises; the condition
    is appended only when it does not. *)
Definition filter_node (conds : list Element) : Element :=
  Elem "filter" [("type", "and")] None None conds.

Definition appended (c : call) : list Element :=
  match c with
  | Select l =>
      if bool_decide (l = ["ALL"]) then [new_element "all-attributes" []]
      else List.map (λ n, new_element "attribute" [("name", n)]) l
  | LinkEntity n a f t k =>
      [new_element "link-entity"
         [("name", n); ("alias", if_else a n);
          ("from", if_else f (n +:+ "id")); ("to", if_else t (n +:+ "id"));
          ("link-type", if_else k "inner")]]
  | AddFilter _ _ _ => []
  | AddOrder a d =>
      [new_element "order"
         [("attribute", a); ("descending", if d then "true" else "false")]]
  | AddAggregate a al ty =>
      [new_element "attribute" [("name", a); ("alias", al); ("aggregate", ty)]]
  | AddGroupBy l =>
      List.map (λ n, new_element "attribute" [("name", n); ("groupby", "true")]) l
  end.

Definition step (kf : list Element * option nat) (c : call)
  : list Element * option nat :=
  match c, kf.2 with
  | AddFilter a o v, None =>
      (kf.1 ++ [filter_node (condition_of a o v)], Some (length kf.1))
  | AddFilter a o v, Some i =>
      match py_str v with
      | Ok s => (alter (λ f, append f (condition_node a o s)) i kf.1, Some i)
      | Raise _ => (kf.1, Some i)
      end
  | _, fi => (kf.1 ++ appended c, fi)
  end.

(** The document of a builder whose entity node has the children [kids]. *)
Definition fetch_doc (nm : string) (kids : list Element) : Element :=
  Elem "fetch" [] None None [Elem "entity" [("name", nm)] None None kids].

(** The object of a builder made of builder calls only: one document, the
    references of [__init__], and the filter node at index [fi] once
    [add_filter] has run. *)
Record built (nm : string) (kids : list Element) (fi : option nat)
    (b : XMLQueryBuilder) : Prop := mkBuilt {
  built_store : store b = [fetch_doc nm kids];
  built_root : root b = Ref 0 [];
  built_entity : entity b = Some (Ref 0 [0%nat]);
  built_filter :
    match fi with
    | None => filters b = []
    | Some i =>
        filters b ≠ [] ∧ filter_root b = Some (Ref 0 [0%nat; i])
        ∧ is_Some (kids !! i)
    end
}.






(** The references of the object resolve, and [filter_root] is set once
    [filters] is not empty. *)
Definition refs_resolve (b : XMLQueryBuilder) : Prop :=
  is_Some (root_node b) ∧
  (∀ r, entity b = Some r → is_Some (get_ref (store b) r)) ∧
  (∀ r, filter_root b = Some r → is_Some (get_ref (store b) r)) ∧
  (filters b ≠ [] → is_Some (filter_root b)).

(** The exception a run raised, if any. *)
Definition raised {A} (x : result A * XMLQueryBuilder) : option exn :=
  match x.1 with
  | Ok _ => None
  | Raise e => Some e
  end.

(** A method keeps the references resolving and raises neither
    [Dangling] nor [AttributeError]. *)
Definition keeps_refs {A} (m : M A) : Prop :=
  ∀ b, refs_resolve b →
    raised (m b) ≠ Some Dangling ∧ raised (m b) ≠ Some AttributeError ∧
    refs_resolve (m b).2.

(** The builders the code can make: by the constructor or by
    [from_fetch_xml], and then by any calls. *)
Inductive reachable (fromstring : string → option Element)
  : XMLQueryBuilder → Prop :=
| reach_init nm : reachable fromstring (__init__ nm)
| reach_from s b :
    from_fetch_xml fromstring s = Ok b → reachable fromstring b
| reach_call c b :
    reachable fromstring b → reachable fromstring (do_call c b).2
| reach_add_fetch_xml s b :
    reachable fromstring b →
    reachable fromstring (add_fetch_xml fromstring s b).2.

(** ** Further notions: the whole tree of a chain, growth, outcomes *)

(** The nodes the calls of a chain append to the entity node, in call
    order; an [add_filter] call appends none of its own. *)
Fixpoint nodes_of (cs : list call) : list Element :=
  match cs with
  | [] => []
  | c :: cs' => appended c ++ nodes_of cs'
  end.

(** The children of the entity node after a chain of calls on a new
    builder: the nodes of the calls in call order, with the one filter node
    at the place of the first [add_filter], holding every condition. *)
Fixpoint entity_children (cs : list call) : list Element :=
  match cs with
  | [] => []
  | AddFilter a o v :: cs' =>
      filter_node (condition_of a o v ++ conditions_of cs') :: nodes_of cs'
  | c :: cs' => appended c ++ entity_children cs'
  end.

(** [extends e e']: [e'] is [e] with children appended, at any depth;
    labels, attributes, text, tail and the order of the children of [e]
    are those of [e']. *)
#[local] Unset Elimination Schemes.
Inductive extends : Element → Element → Prop :=
| extends_node t a x y c c' more :
    Forall2 extends c c' →
    extends (Elem t a x y c) (Elem t a x y (c' ++ more)).
#[local] Set Elimination Schemes.

(** A method changes neither [self.root] nor [self.entity] nor
    [self.root_entity_name], and every document of the store only grows. *)
Definition grows {A} (m : M A) : Prop :=
  ∀ b, root (m b).2 = root b ∧ entity (m b).2 = entity b
       ∧ root_entity_name (m b).2 = root_entity_name b
       ∧ Forall2 extends (store b) (store (m b).2).

(** A method returns, or raises [TypeError] on a builder whose entity is
    [None], or raises [ValueError] where [no_str] holds (a value that has
    no [str]); it keeps the references resolving and the entity
    reference. *)
Definition fails_only (no_str : Prop) {A} (m : M A) : Prop :=
  ∀ b, refs_resolve b →
    (raised (m b) = None
     ∨ (raised (m b) = Some TypeError ∧ entity b = None)
     ∨ (raised (m b) = Some ValueError ∧ no_str))
    ∧ refs_resolve (m b).2 ∧ entity (m b).2 = entity b.

(** The calls [main] chains on [XMLQueryBuilder("account")]. *)
Definition main_calls : list call :=
  [Select ["name"; "accountid"];
   LinkEntity "contact" (Some "c") (Some "contactid")
     (Some "primarycontactid") None;
   AddFilter "name" "eq" (PyStr "Contoso");
   AddFilter "statecode" "eq" (PyInt 0);
   AddOrder "name" true;
   AddAggregate "revenue" "total_revenue" "sum";
   AddGroupBy ["industry"]].

(** [XMLQueryBuilder(nm).c1(...)...cn(...).to_string()]: what the
    expression evaluates to. *)
Definition text_of_chain (toprettyxml : string → option string)
    (nm : string) (cs : list call) : result string :=
  ((chain cs;; to_string toprettyxml false) (__init__ nm)).1.

(** A builder whose entity reference [r] resolved to [e] when it had no
    filter node yet, after calls that gave the entity node the further
    children [kids], the filter node at index [fi] among them. *)
Record extended (r : ref) (e : Element) (kids : list Element)
    (fi : option nat) (b : XMLQueryBuilder) : Prop := mkExtended {
  extended_entity : entity b = Some r;
  extended_node :
    get_ref (store b) r =
      Some (Elem (tag e) (attrib e) (text e) (tail e) (children e ++ kids));
  extended_filter :
    match fi with
    | None => filters b = []
    | Some i =>
        filters b ≠ []
        ∧ filter_root b =
            Some (Ref (ref_doc r) (ref_path r ++ [(length (children e) + i)%nat]))
        ∧ is_Some (kids !! i)
    end
}.

(** ** Lemmas on paths and references *)

Lemma get_alter_at (f : Element → Element) (p : path) (e : Element) :
  get p (alter_at f p e) = f <$> get p e.
Proof.
  revert e. induction p as [|i p IH]; intros [t a x y c]; simpl; [done|].
  rewrite list_lookup_alter_eq. destruct (c !! i) as [k|]; simpl; [apply IH|done].
Qed.

Lemma get_ref_alter_ref (f : Element → Element) (r : ref) (st : list Element) :
  get_ref (alter_ref f r st) r = f <$> get_ref st r.
Proof.
  unfold get_ref, alter_ref. rewrite list_lookup_alter_eq.
  destruct (st !! ref_doc r) as [t|]; simpl; [apply get_alter_at|done].
Qed.

Lemma get_ref_alloc (st : list Element) (t : Element) :
  get_ref (st ++ [t]) (Ref (length st) []) = Some t.
Proof. unfold get_ref; simpl. by rewrite list_lookup_middle. Qed.

(** Running the monad: unfold the combinators down to pairs. *)
Ltac run_M :=
  unfold mbind, M_bind, mret, M_ret, bind, ret, gets, modify, raise; simpl.

(** What [SubElement] does on a parent that resolves. *)
Lemma SubElement_ok (b : XMLQueryBuilder) (r : ref) (e : Element)
    (tg : string) (a : list (string * string)) :
  get_ref (store b) r = Some e →
  SubElement (Some r) tg a b =
    (Ok (Ref (ref_doc r) (ref_path r ++ [length (children e)])),
     set_store (alter_ref (λ x, append x (new_element tg a)) r (store b)) b).
Proof. intros H. unfold SubElement. run_M. by rewrite H. Qed.

Lemma SubElement_None (b : XMLQueryBuilder) (tg : string)
    (a : list (string * string)) :
  SubElement None tg a b = (Raise TypeError, b).
Proof. done. Qed.

#[local] Arguments SubElement : simpl never.

Lemma alter_last {A} (f : A → A) (l : list A) (x : A) :
  alter f (length l) (l ++ [x]) = l ++ [f x].
Proof. by rewrite alter_app_r_alt, Nat.sub_diag. Qed.


(** ** The serializer and the parser: round trip *)

Lemma append_assoc (a b c : string) : (a +:+ b) +:+ c = a +:+ (b +:+ c).
Proof. induction a as [|x a IH]; [done|]. simpl. by f_equal. Qed.

Lemma append_nil_r (a : string) : a +:+ EmptyString = a.
Proof. induction a as [|x a IH]; [done|]. simpl. by f_equal. Qed.

Lemma length_append (a b : string) :
  String.length (a +:+ b) = (String.length a + String.length b)%nat.
Proof. induction a as [|x a IH]; [done|]. simpl. by f_equal. Qed.

(** Case analysis on the 256 characters. *)
Ltac each_char c :=
  destruct c as [[|] [|] [|] [|] [|] [|] [|] [|]].

Lemma name_start_facts (c : ascii) :
  is_name_start c = true →
  is_name_char c = true ∧ is_space c = false
  ∧ Ascii.eqb c "/" = false ∧ Ascii.eqb c ">" = false.
Proof. each_char c; vm_compute; intros; try discriminate; auto. Qed.

Lemma escape_attrib_cons (c : ascii) (v : string) :
  _escape_attrib (String c v) = escape_attrib_char c +:+ _escape_attrib v.
Proof. each_char c; reflexivity. Qed.

Lemma parse_attvalue_char (c : ascii) (s : string) :
  is_xml_char c = true →
  parse_attvalue DQUOTE None (escape_attrib_char c +:+ s) =
    '(v, r) ← parse_attvalue DQUOTE None s; Some (String c v, r).
Proof. each_char c; intros H; try discriminate H; reflexivity. Qed.

Lemma parse_attvalue_escape (v r : string) :
  xml_safe v = true →
  parse_attvalue DQUOTE None (_escape_attrib v +:+ String DQUOTE r)
    = Some (v, r).
Proof.
  induction v as [|c v IH]; [done|].
  intros [Hc Hv]%andb_true_iff.
  rewrite escape_attrib_cons, append_assoc, parse_attvalue_char by done.
  by rewrite IH.
Qed.

(** Names. *)
Lemma take_name_append (n r : string) :
  all_chars is_name_char n = true →
  (∀ c r', r = String c r' → is_name_char c = false) →
  take_name (n +:+ r) = (n, r).
Proof.
  intros Hn Hr. induction n as [|c n IH]; simpl.
  - destruct r as [|c r']; [done|]. simpl. by rewrite (Hr c r').
  - simpl in Hn. apply andb_true_iff in Hn as [Hc Hn].
    by rewrite Hc, IH.
Qed.

Lemma parse_name_append (n r : string) :
  valid_name n = true →
  (∀ c r', r = String c r' → is_name_char c = false) →
  parse_name (n +:+ r) = Some (n, r).
Proof.
  intros Hn Hr. destruct n as [|c n]; [done|].
  apply andb_true_iff in Hn as [Hc Hn].
  change (String c n +:+ r) with (String c (n +:+ r)).
  unfold parse_name. rewrite Hc.
  change (String c (n +:+ r)) with (String c n +:+ r).
  by rewrite take_name_append.
Qed.

Lemma valid_name_head (n r : string) :
  valid_name n = true →
  ∃ c n', n = String c n' ∧ is_name_start c = true.
Proof.
  destruct n as [|c n]; [done|]. intros [Hc _]%andb_true_iff. eauto.
Qed.

(** Attributes. *)
Lemma skip_ws_name (n r : string) :
  valid_name n = true → skip_ws (n +:+ r) = n +:+ r.
Proof.
  intros (c & n' & -> & Hc)%(valid_name_head _ r).
  destruct (name_start_facts c Hc) as (_ & Hs & _). simpl. by rewrite Hs.
Qed.

Lemma starts_with_name (x : ascii) (n r : string) :
  valid_name n = true → is_name_char x = false →
  starts_with x (n +:+ r) = false.
Proof.
  intros (c & n' & -> & Hc)%(valid_name_head _ r) Hx.
  destruct (name_start_facts c Hc) as (Hn & _). simpl.
  destruct (Ascii.eqb_spec c x) as [->|]; [congruence|done].
Qed.

Lemma parse_attrs_items (items : list (string * string)) (r : string)
    (fuel : nat) :
  forallb wf_item items = true →
  distinct items.*1 = true →
  starts_with "/" (skip_ws r) || starts_with ">" (skip_ws r) = true →
  length items < fuel →
  parse_attrs fuel (join (List.map write_item items) +:+ r)
    = Some (items, skip_ws r).
Proof.
  intros Hwf Hd Hr. revert fuel.
  induction items as [|[k v] items IH]; intros [|f] Hf;
    try (simpl in Hf; lia).
  - simpl. by rewrite Hr.
  - simpl in Hwf, Hd, Hf.
    apply andb_true_iff in Hwf as [[Hk Hv]%andb_true_iff Hwf].
    apply andb_true_iff in Hd as [Hnin Hd].
    specialize (IH Hwf Hd f ltac:(lia)).
    set (rest := join (List.map write_item items) +:+ r) in *.
    set (tl := String "=" (String DQUOTE (_escape_attrib v +:+ String DQUOTE rest))).
    assert (Hshape : join (List.map write_item ((k, v) :: items)) +:+ r
                     = String " " (k +:+ tl)).
    { unfold tl, rest. cbn [List.map join write_item fst snd].
      simpl. by repeat (rewrite !append_assoc; simpl). }
    rewrite Hshape. cbn [parse_attrs].
    assert (Hskip : skip_ws (String " " (k +:+ tl)) = k +:+ tl)
      by (simpl; by apply skip_ws_name).
    rewrite Hskip.
    rewrite !(starts_with_name _ k) by done. simpl orb. cbv iota.
    assert (Hlt : (String.length (k +:+ tl)
                   <? String.length (String " " (k +:+ tl)))%nat = true)
      by (apply Nat.ltb_lt; simpl; lia).
    rewrite Hlt. simpl negb. cbv iota.
    rewrite (parse_name_append k) by (done || by intros ? ? [= <- _]).
    unfold tl. simpl.
    rewrite parse_attvalue_escape by done. simpl.
    unfold rest in IH |- *. rewrite IH. simpl.
    assert (E : bool_decide (k ∈ items.*1) = false)
      by exact (proj1 (negb_true_iff _) Hnin).
    by rewrite E.
Qed.

(** Elements. *)
Lemma expect_name (x : ascii) (n r : string) :
  valid_name n = true → is_name_char x = false → expect x (n +:+ r) = None.
Proof.
  intros Hn Hx. pose proof (starts_with_name x n r Hn Hx) as H.
  destruct (n +:+ r) as [|c s]; [done|]. simpl in *. by rewrite H.
Qed.

Lemma serialize_head (e : Element) :
  ∃ x, _serialize_xml e = String "<" (tag e +:+ x).
Proof.
  destruct e as [tg items txt tl kids]. eexists.
  cbn [_serialize_xml tag]. rewrite !append_assoc. reflexivity.
Qed.

Lemma items_head (items : list (string * string)) (R : string) :
  (∀ c r', R = String c r' → is_name_char c = false) →
  ∀ c r', join (List.map write_item items) +:+ R = String c r' →
          is_name_char c = false.
Proof.
  intros HR c r'. destruct items as [|kv items]; simpl; [by apply HR|].
  unfold write_item. simpl. by intros [= <- _].
Qed.

Section ParseTree.

Let parses (k : Element) : Prop :=
  wf_elem k = true →
  ∀ (fuel : nat) (r : string), (size k ≤ fuel)%nat →
    parse_element fuel (_serialize_xml k +:+ r) = Some (k, r).

Lemma parse_content_children (kids : list Element) :
  Forall parses kids →
  forallb wf_elem kids = true →
  ∀ (fuel : nat) (r : string),
    (1 + list_sum (List.map size kids) ≤ fuel)%nat →
    parse_content fuel
      (join (List.map _serialize_xml kids) +:+ String "<" (String "/" r))
    = Some (None, kids, r).
Proof using Type.
  induction 1 as [|k ks Hk _ IH]; intros Hwf [|f] r Hf;
    try (simpl in Hf; lia); [done|].
  simpl in Hwf, Hf. apply andb_true_iff in Hwf as [Hwk Hwks].
  cbn [List.map join]. rewrite append_assoc.
  set (rest := join (List.map _serialize_xml ks) +:+ String "<" (String "/" r)).
  destruct (serialize_head k) as [x Hx].
  assert (Hname : valid_name (tag k) = true).
  { destruct k; simpl in *. by repeat (apply andb_true_iff in Hwk as [Hwk _]). }
  assert (Htail : set_tail k None = k).
  { destruct k as [? ? ? [?|] ?]; simpl in *; [|done].
    by rewrite !andb_false_r in Hwk. }
  assert (Hsz : (2 ≤ size k)%nat) by (destruct k; simpl; lia).
  cbn [parse_content].
  assert (Hcd : parse_chardata None (_serialize_xml k +:+ rest)
                = Some (EmptyString, _serialize_xml k +:+ rest))
    by (by rewrite Hx).
  rewrite Hcd. cbn [mbind option_bind]. cbv beta iota.
  assert (Hend : expect "<" (_serialize_xml k +:+ rest) ≫= expect "/" = None).
  { rewrite Hx. simpl. rewrite append_assoc. by apply expect_name. }
  rewrite Hend.
  rewrite (Hk Hwk f rest) by lia. cbn [mbind option_bind]. cbv beta iota.
  unfold rest. rewrite (IH Hwks f r) by lia.
  cbn [mbind option_bind]. cbv beta iota. by rewrite Htail.
Qed.

End ParseTree.

Lemma parse_element_serialize (e : Element) :
  wf_elem e = true →
  ∀ (fuel : nat) (r : string), (size e ≤ fuel)%nat →
    parse_element fuel (_serialize_xml e +:+ r) = Some (e, r).
Proof.
  induction e as [tg items txt tl kids IH] using Element_ind.
  intros Hwf [|f] r Hf; [simpl in Hf; lia|].
  cbn [wf_elem] in Hwf.
  repeat match type of Hwf with
         | (_ && _ = true) => apply andb_true_iff in Hwf as [Hwf ?]
         end.
  destruct txt; [done|]. destruct tl; [done|].
  cbn [size] in Hf.
  pose proof (parse_content_children kids IH) as Hkids.
  set (close := String "<" (String "/" (tg +:+ String ">" r))).
  set (R := if bool_decide (kids = []) then String " " (String "/" (String ">" r))
            else String ">" (join (List.map _serialize_xml kids) +:+ close)).
  assert (Hshape : _serialize_xml (Elem tg items None None kids) +:+ r
                   = String "<" (tg +:+ join (List.map write_item items) +:+ R)).
  { unfold R, close. cbn [_serialize_xml truthy write_cdata orb].
    destruct kids; simpl; by repeat (rewrite ?append_nil_r, ?append_assoc; simpl). }
  assert (HR : ∀ c r', R = String c r' → is_name_char c = false).
  { unfold R. intros c r'. by destruct (bool_decide _); intros [= <- _]. }
  rewrite Hshape. cbn [parse_element expect]. simpl Ascii.eqb. cbv iota.
  cbn [mbind option_bind]. cbv beta iota.
  rewrite (parse_name_append tg) by (done || by apply items_head).
  cbn [mbind option_bind]. cbv beta iota.
  rewrite (parse_attrs_items items R f); [|done|done| |]. 3:{ lia. }
  2:{ unfold R. by destruct (bool_decide _). }
  cbn [mbind option_bind]. cbv beta iota.
  unfold R. destruct kids as [|k ks]; [done|].
  rewrite bool_decide_eq_false_2 by done.
  simpl skip_ws. cbn [starts_with expect]. simpl Ascii.eqb. cbv iota.
  cbn [mbind option_bind]. cbv beta iota.
  unfold close. rewrite Hkids by (done || lia).
  cbn [mbind option_bind]. cbv beta iota.
  rewrite (parse_name_append tg) by (done || by intros ? ? [= <- _]).
  cbn [mbind option_bind]. cbv beta iota.
  by rewrite String.eqb_refl.
Qed.

Lemma size_le_length (e : Element) :
  (size e ≤ String.length (_serialize_xml e))%nat.
Proof.
  induction e as [tg items txt tl kids IH] using Element_ind.
  cbn [_serialize_xml size]. rewrite !length_append.
  assert (Hitems : (length items
            ≤ String.length (join (List.map write_item items)))%nat).
  { clear. induction items as [|kv items IHi]; [done|].
    cbn [List.map join length]. rewrite length_append.
    assert (1 ≤ String.length (write_item kv))%nat
      by (unfold write_item; simpl; lia).
    lia. }
  assert (Hkids : (list_sum (List.map size kids)
            ≤ String.length (join (List.map _serialize_xml kids)))%nat).
  { clear -IH. unfold list_sum.
    induction IH as [|k ks Hk _ IHks]; [done|].
    cbn [List.map join foldr]. rewrite length_append. lia. }
  destruct kids as [|k ks].
  - cbn [list_sum List.map fold_right].
    destruct (truthy txt); simpl String.length; lia.
  - rewrite bool_decide_eq_false_2, orb_true_r by done.
    remember (join (List.map _serialize_xml (k :: ks))) as J.
    remember (list_sum (List.map size (k :: ks))) as n.
    rewrite !length_append. simpl String.length. lia.
Qed.

(** The parser reads back the tree the serializer wrote. *)
Lemma fromstring_tostring (e : Element) :
  wf_elem e = true → ET.fromstring (tostring e) = Some e.
Proof.
  intros Hwf. unfold ET.fromstring, tostring.
  destruct (serialize_head e) as [x Hx].
  assert (Hskip : skip_ws (_serialize_xml e) = _serialize_xml e)
    by (by rewrite Hx).
  rewrite Hskip.
  rewrite <- (append_nil_r (_serialize_xml e)) at 2.
  rewrite (parse_element_serialize e Hwf); [done|].
  pose proof (size_le_length e). lia.
Qed.

(** ** The builder calls on a builder that has an entity node *)

Section Calls.

Variables (b : XMLQueryBuilder) (r : ref) (e : Element).
Hypothesis Hentity : entity b = Some r.
Hypothesis Hnode : get_ref (store b) r = Some e.

Lemma entity_node_with_child tg a :
  entity_node (with_child b r tg a) = Some (append e (new_element tg a)).
Proof using Hentity Hnode.
  unfold entity_node, with_child; simpl. rewrite Hentity; simpl.
  rewrite get_ref_alter_ref. by rewrite Hnode.
Qed.

Lemma select_ALL_run :
  select ["ALL"] b = (Ok self, with_child b r "all-attributes" []).
Proof using Hentity Hnode.
  unfold select. run_M. rewrite Hentity.
  by rewrite (SubElement_ok b r e _ _ Hnode).
Qed.

Lemma link_entity_run name alias from_field to_field link_type :
  let a := [("name", name);
            ("alias", if_else alias name);
            ("from", if_else from_field (name +:+ "id"));
            ("to", if_else to_field (name +:+ "id"));
            ("link-type", if_else link_type "inner")] in
  link_entity name alias from_field to_field link_type b =
    (Ok self,
     set_linked_entities
       (linked_entities b
          ++ [Ref (ref_doc r) (ref_path r ++ [length (children e)])])
       (with_child b r "link-entity" a)).
Proof using Hentity Hnode.
  unfold link_entity. run_M. rewrite Hentity.
  by rewrite (SubElement_ok b r e _ _ Hnode).
Qed.

End Calls.

(** ** Lookup of the entity element *)


Lemma find_descendant_None (tg : string) (e : Element) :
  has_tag tg e = false → find_descendant tg e = None.
Proof.
  induction e as [t a x y c IH] using Element_ind. simpl.
  intros [_ H]%orb_false_iff. generalize 0%nat.
  induction IH as [|k l Hk _ IHl]; intros i; [done|].
  simpl in H. apply orb_false_iff in H as [Hk' Hl].
  rewrite (Hk Hk'). destruct k as [t' a' x' y' c']; simpl in *.
  apply orb_false_iff in Hk' as [-> _]. by apply IHl.
Qed.

(** ** Builders made of builder calls *)

Lemma built_init (nm : string) : built nm [] None (__init__ nm).
Proof. by split. Qed.

(** The fields a call records in do not matter to [built]. *)
Lemma built_frame nm kids fi (b b' : XMLQueryBuilder) :
  store b' = store b → root b' = root b → entity b' = entity b →
  filter_root b' = filter_root b → filters b' = filters b →
  built nm kids fi b → built nm kids fi b'.
Proof.
  intros Hs Hr He Hfr Hf [? ? ? ?].
  split; [congruence..|]. destruct fi; by rewrite ?Hfr, Hf.
Qed.

(** [SubElement(self.entity, tg, a)] on such a builder. *)
Lemma built_SubElement_entity nm kids fi b tg a :
  built nm kids fi b →
  ∃ b',
    SubElement (Some (Ref 0 [0%nat])) tg a b
      = (Ok (Ref 0 [0%nat; length kids]), b') ∧
    built nm (kids ++ [new_element tg a]) fi b' ∧
    filter_root b' = filter_root b ∧ filters b' = filters b ∧
    select_attributes b' = select_attributes b.
Proof.
  intros [Hs Hr He Hf].
  eexists. split.
  { rewrite (SubElement_ok b _ (Elem "entity" [("name", nm)] None None kids))
      by (by rewrite Hs).
    reflexivity. }
  split; [|done]. split; simpl; [by rewrite Hs|done|done|].
  destruct fi as [i|]; [|done].
  destruct Hf as (? & ? & [x Hx]). repeat split; [done..|].
  exists x. by apply lookup_app_l_Some.
Qed.

(** [SubElement(self.filter_root, tg, a)] on such a builder. *)
Lemma built_SubElement_filter nm kids i b tg a :
  built nm kids (Some i) b →
  ∃ b' r,
    SubElement (Some (Ref 0 [0%nat; i])) tg a b = (Ok r, b') ∧
    built nm (alter (λ f, append f (new_element tg a)) i kids) (Some i) b'.
Proof.
  intros [Hs Hr He (Hf & Hfr & [x Hx])].
  eexists _, _. split.
  { rewrite (SubElement_ok b _ x); [reflexivity|].
    rewrite Hs. unfold get_ref; simpl. by rewrite Hx. }
  split; simpl; [by rewrite Hs|done|done|].
  repeat split; [done..|]. rewrite list_lookup_alter_eq, Hx. by eexists.
Qed.

(** A loop that appends one node per name. *)
Lemma for_each_built tg (mk : string → list (string * string))
    (post : M unit) :
  (∀ nm kids fi b, built nm kids fi b →
     ∃ b', post b = (Ok tt, b') ∧ built nm kids fi b') →
  ∀ l nm kids fi b, built nm kids fi b →
    ∃ b',
      for_each l (λ attr, e ← gets entity; SubElement e tg (mk attr);; post) b
        = (Ok tt, b') ∧
      built nm (kids ++ List.map (λ n, new_element tg (mk n)) l) fi b'.
Proof.
  intros Hpost. induction l as [|x l IH]; intros nm kids fi b Hb.
  - exists b. split; [done|]. by rewrite app_nil_r.
  - destruct (built_SubElement_entity nm kids fi b tg (mk x) Hb)
      as (b1 & Hsub & Hb1 & _).
    destruct (Hpost _ _ _ _ Hb1) as (b2 & Hp & Hb2).
    destruct (IH _ _ _ _ Hb2) as (b3 & Hl & Hb3).
    exists b3. split.
    + cbn [for_each]. unfold mbind, M_bind, bind, gets in *.
      rewrite (built_entity _ _ _ _ Hb), Hsub, Hp. exact Hl.
    + cbn [List.map]. by rewrite cons_middle, app_assoc.
Qed.

Lemma do_call_built nm kids fi b c :
  built nm kids fi b →
  ∃ b',
    do_call c b = (outcome c, b') ∧
    built nm (step (kids, fi) c).1 (step (kids, fi) c).2 b'.
Proof.
  intros Hb. pose proof (built_entity _ _ _ _ Hb) as He.
  destruct c as [l|n a f t k|a o v|a d|a al ty|l]; cbn [do_call outcome].
  - (* select *)
    unfold select. cbn [step appended fst snd].
    destruct (bool_decide (l = ["ALL"])).
    + destruct (built_SubElement_entity nm kids fi b "all-attributes" [] Hb)
        as (b1 & Hsub & Hb1 & _).
      exists b1. split; [|by destruct fi].
      unfold mbind, M_bind, bind, gets. by rewrite He, Hsub.
    + destruct (for_each_built "attribute" (λ n, [("name", n)])
                  (modify (λ b, set_select_attributes
                                  (select_attributes b ++ l) b)))
        with (l := l) (nm := nm) (kids := kids) (fi := fi) (b := b)
        as (b1 & Hl & Hb1); [|done|].
      { intros ? ? ? b0 H0. eexists. split; [reflexivity|].
        by apply (built_frame _ _ _ b0). }
      exists b1. split; [|by destruct fi].
      unfold mbind, M_bind, bind in *. by rewrite Hl.
  - (* link_entity *)
    destruct (built_SubElement_entity nm kids fi b "link-entity"
                [("name", n); ("alias", if_else a n);
                 ("from", if_else f (n +:+ "id"));
                 ("to", if_else t (n +:+ "id"));
                 ("link-type", if_else k "inner")] Hb)
      as (b1 & Hsub & Hb1 & _).
    eexists. split.
    + unfold link_entity, mbind, M_bind, bind, gets. rewrite He, Hsub.
      reflexivity.
    + cbn [step appended fst snd]. destruct fi; by apply (built_frame _ _ _ b1).
  - (* add_filter *)
    unfold add_filter. cbn [step fst snd]. destruct fi as [i|].
    + destruct (built_filter _ _ _ _ Hb) as (Hf & Hfr & _).
      destruct (py_str v) as [s|ex] eqn:Hv.
      * destruct (built_SubElement_filter nm kids i b "condition"
                    [("attribute", a); ("operator", o); ("value", s)] Hb)
          as (b1 & r1 & Hsub & Hb1).
        exists b1. split; [|done].
        unfold get_filter_root, eval, mbind, M_bind, bind, gets, mret, M_ret,
          ret.
        rewrite bool_decide_eq_false_2 by done. rewrite Hfr.
        by rewrite Hsub.
      * exists b. split; [|done].
        unfold get_filter_root, eval, mbind, M_bind, bind, gets, mret, M_ret,
          ret.
        rewrite bool_decide_eq_false_2 by done. by rewrite Hfr.
    + pose proof (built_filter _ _ _ _ Hb) as Hf. simpl in Hf.
      destruct (built_SubElement_entity nm kids None b "filter"
                  [("type", "and")] Hb)
        as (b1 & Hsub & Hb1 & Hfr1 & Hf1 & _).
      set (fr := Ref 0 [0%nat; length kids]) in *.
      set (b2 := set_filters (filters (set_filter_root (Some fr) b1) ++ [fr])
                   (set_filter_root (Some fr) b1)).
      assert (Hb2 : built nm (kids ++ [new_element "filter" [("type", "and")]])
                      (Some (length kids)) b2).
      { destruct Hb1 as [Hs1 Hr1 He1 _].
        split; simpl; [done..|]. split; [by destruct (filters b1)|].
        split; [done|]. rewrite list_lookup_middle by done. by eexists. }
      unfold condition_of. destruct (py_str v) as [s|ex] eqn:Hv.
      * destruct (built_SubElement_filter _ _ _ b2 "condition"
                    [("attribute", a); ("operator", o); ("value", s)] Hb2)
          as (b3 & r3 & Hsub3 & Hb3).
        exists b3. split.
        -- unfold get_filter_root, eval, mbind, M_bind, bind, gets, modify,
             mret, M_ret, ret.
           rewrite Hf. rewrite bool_decide_eq_true_2 by done.
           rewrite He, Hsub. simpl.
           by replace (SubElement _ _ _ _) with (Ok r3, b3)
             by (symmetry; exact Hsub3).
        -- rewrite alter_last in Hb3. exact Hb3.
      * exists b2. split; [|exact Hb2].
        unfold get_filter_root, eval, mbind, M_bind, bind, gets, modify,
          mret, M_ret, ret.
        rewrite Hf. rewrite bool_decide_eq_true_2 by done.
        by rewrite He, Hsub.
  - (* add_order *)
    destruct (built_SubElement_entity nm kids fi b "order"
                [("attribute", a);
                 ("descending", if d then "true" else "false")] Hb)
      as (b1 & Hsub & Hb1 & _).
    eexists. split.
    + unfold add_order, mbind, M_bind, bind, gets. rewrite He, Hsub.
      reflexivity.
    + cbn [step appended fst snd]. destruct fi; by apply (built_frame _ _ _ b1).
  - (* add_aggregate *)
    destruct (built_SubElement_entity nm kids fi b "attribute"
                [("name", a); ("alias", al); ("aggregate", ty)] Hb)
      as (b1 & Hsub & Hb1 & _).
    eexists. split.
    + unfold add_aggregate, mbind, M_bind, bind, gets. rewrite He, Hsub.
      reflexivity.
    + cbn [step appended fst snd]. destruct fi; by apply (built_frame _ _ _ b1).
  - (* add_group_by *)
    destruct (for_each_built "attribute"
                (λ n, [("name", n); ("groupby", "true")]) (ret tt))
      with (l := l) (nm := nm) (kids := kids) (fi := fi) (b := b)
      as (b1 & Hl & Hb1); [by eauto|done|].
    exists b1. split; [|by destruct fi].
    unfold add_group_by, mbind, M_bind, bind in *. by rewrite Hl.
Qed.

(** A chain of calls runs to the end, and the children of the entity node
    are those [step] computes. *)
Lemma outcome_returns (c : call) :
  call_returns c = true → outcome c = Ok self.
Proof. destruct c; try done. simpl. by destruct (py_str _). Qed.

Lemma call_safe_returns (c : call) :
  call_safe c = true → call_returns c = true.
Proof.
  destruct c; try done. simpl. destruct (py_str _); [done|].
  by rewrite andb_false_r.
Qed.

Lemma calls_safe_return (cs : list call) :
  forallb call_safe cs = true → forallb call_returns cs = true.
Proof.
  induction cs as [|c cs IH]; [done|]. cbn [forallb].
  intros [Hc Hcs]%andb_true_iff. by rewrite call_safe_returns, IH.
Qed.

Lemma chain_built cs : ∀ nm kids fi b,
  forallb call_returns cs = true →
  built nm kids fi b →
  ∃ b',
    chain cs b = (Ok self, b') ∧
    built nm (foldl step (kids, fi) cs).1 (foldl step (kids, fi) cs).2 b'.
Proof.
  induction cs as [|c cs IH]; intros nm kids fi b Hcs Hb; [by exists b|].
  cbn [forallb] in Hcs. apply andb_true_iff in Hcs as [Hc Hcs].
  destruct (do_call_built nm kids fi b c Hb) as (b1 & Hrun & Hb1).
  rewrite (outcome_returns c Hc) in Hrun.
  destruct (IH _ _ _ _ Hcs Hb1) as (b2 & Hrest & Hb2).
  exists b2. split.
  - cbn [chain]. unfold mbind, M_bind, bind. by rewrite Hrun.
  - cbn [foldl]. by destruct (step (kids, fi) c).
Qed.






(** The trees of a chain of safe calls are well formed. *)
Lemma all_chars_append p (a b : string) :
  all_chars p (a +:+ b) = all_chars p a && all_chars p b.
Proof.
  induction a as [|c a IH]; [done|]. simpl. by rewrite IH, andb_assoc.
Qed.

Lemma xml_safe_if_else (x : option string) (d : string) :
  opt_safe x = true → xml_safe d = true → xml_safe (if_else x d) = true.
Proof. destruct x as [[|c s]|]; simpl; auto. Qed.

Lemma wf_leaf (tg : string) (a : list (string * string)) :
  valid_name tg = true →
  forallb valid_name a.*1 = true →
  distinct a.*1 = true →
  forallb xml_safe a.*2 = true →
  wf_elem (new_element tg a) = true.
Proof.
  intros Ht Hk Hd Hv. cbn [wf_elem new_element is_None forallb].
  rewrite Ht, Hd, !andb_true_r, andb_true_l. clear Ht Hd.
  induction a as [|[k v] a IH]; [done|].
  cbn [fmap list_fmap fst snd forallb] in Hk, Hv.
  apply andb_true_iff in Hk as [Hk Hks].
  apply andb_true_iff in Hv as [Hv Hvs].
  cbn [forallb]. unfold wf_item at 1. cbn [fst snd].
  by rewrite Hk, Hv, IH.
Qed.

Lemma wf_append (e k : Element) :
  wf_elem e = true → wf_elem k = true → wf_elem (append e k) = true.
Proof.
  destruct e as [t a x y c]. cbn [wf_elem append]. intros He Hk.
  rewrite forallb_app. cbn [forallb]. rewrite Hk, andb_true_r.
  exact He.
Qed.

Ltac split_andb :=
  repeat match goal with
         | H : _ && _ = true |- _ => apply andb_true_iff in H as [? ?]
         end.

Lemma xml_safe_append (a b : string) :
  xml_safe a = true → xml_safe b = true → xml_safe (a +:+ b) = true.
Proof. unfold xml_safe. intros Ha Hb. by rewrite all_chars_append, Ha. Qed.

(** [str] of an integer, a boolean or [None] is safe when it returns. *)
Lemma string_of_uint_safe (d : Decimal.uint) :
  xml_safe (NilEmpty.string_of_uint d) = true.
Proof. induction d; simpl; done. Qed.

Lemma py_str_safe (v : pyvalue) (s : string) :
  (∀ s', v = PyStr s' → xml_safe s' = true) →
  py_str v = Ok s → xml_safe s = true.
Proof.
  destruct v as [s'|z|[|]|]; intros H; cbn [py_str];
    [intros [= <-]; by apply H| |by intros [= <-]..].
  destruct (Nat.ltb _ _); [done|]. intros [= <-].
  unfold NilZero.string_of_int, NilZero.string_of_uint.
  destruct (Z.to_int z) as [[]|[]]; try done;
    try apply (string_of_uint_safe (_ _));
    apply (xml_safe_append "-"); try done;
    apply (string_of_uint_safe (_ _)).
Qed.

(** The values of a node are safe when the arguments of the call are. *)
Ltac safe_values :=
  cbn [fmap list_fmap snd forallb];
  repeat (apply andb_true_intro; split);
  auto using xml_safe_if_else, xml_safe_append.

Lemma appended_wf (c : call) :
  call_safe c = true → forallb wf_elem (appended c) = true.
Proof.
  destruct c as [l|n a f t k|a o v|a d|a al ty|l];
    cbn [call_safe appended]; intros H; split_andb.
  - destruct (bool_decide _); [done|].
    induction l as [|x l IH]; [done|]. cbn [forallb] in H. split_andb.
    cbn [List.map forallb]. rewrite IH by done. rewrite andb_true_r.
    apply wf_leaf; [done..|]. safe_values.
  - cbn [forallb]. rewrite andb_true_r.
    apply wf_leaf; [done..|]. safe_values.
  - done.
  - cbn [forallb]. rewrite andb_true_r.
    apply wf_leaf; [done..|]. safe_values. by destruct d.
  - cbn [forallb]. rewrite andb_true_r.
    apply wf_leaf; [done..|]. safe_values.
  - induction l as [|x l IH]; [done|]. cbn [forallb] in H. split_andb.
    cbn [List.map forallb]. rewrite IH by done. rewrite andb_true_r.
    apply wf_leaf; [done..|]. safe_values.
Qed.

Lemma forallb_Forall {A} (p : A → bool) (l : list A) :
  forallb p l = true ↔ Forall (λ x, p x = true) l.
Proof.
  induction l as [|x l IH]; simpl; [by split|].
  rewrite andb_true_iff, IH. split.
  - intros [? ?]. by constructor.
  - by inversion 1.
Qed.

Lemma step_wf kids fi c :
  forallb wf_elem kids = true → call_safe c = true →
  forallb wf_elem (step (kids, fi) c).1 = true.
Proof.
  intros Hk Hc.
  assert (Happ : forallb wf_elem (kids ++ appended c) = true)
    by (by rewrite forallb_app, Hk, appended_wf).
  destruct c as [l|n a f t k|a o v|a d|a al ty|l]; try exact Happ.
  clear Happ. cbn [call_safe] in Hc. split_andb.
  cbn [step fst snd]. unfold condition_of.
  destruct (py_str v) as [s|ex]; [|done].
  assert (Hcond : wf_elem (condition_node a o s) = true).
  { apply (wf_leaf "condition"); [done..|]. safe_values. }
  destruct fi as [i|]; cbn [fst].
  - apply forallb_Forall, Forall_alter; [by apply forallb_Forall|].
    intros x _ Hx. by apply wf_append.
  - rewrite forallb_app, Hk. cbn [forallb filter_node wf_elem].
    by rewrite Hcond.
Qed.

Lemma foldl_step_wf cs : ∀ kids fi,
  forallb wf_elem kids = true → forallb call_safe cs = true →
  forallb wf_elem (foldl step (kids, fi) cs).1 = true.
Proof.
  induction cs as [|c cs IH]; intros kids fi Hk Hcs; [done|].
  cbn [forallb] in Hcs. split_andb. cbn [foldl].
  pose proof (step_wf kids fi c Hk ltac:(done)) as H1.
  destruct (step (kids, fi) c) as [kids1 fi1]. by apply IH.
Qed.

Lemma fetch_doc_wf nm kids :
  xml_safe nm = true → forallb wf_elem kids = true →
  wf_elem (fetch_doc nm kids) = true.
Proof.
  intros Hn Hk. unfold fetch_doc. cbn [wf_elem forallb is_None].
  rewrite Hk. unfold wf_item. cbn [fst snd]. by rewrite Hn.
Qed.

(** [select] of names that are not the sentinel, on a builder that has an
    entity node: one [attribute] node per name, in order; the recorded list
    grows by the whole argument list once per name. *)
Lemma select_loop (attributes : list string) : ∀ l b r e,
  entity b = Some r →
  get_ref (store b) r = Some e →
  ∃ b',
    for_each l (λ attr,
      e ← gets entity;
      SubElement e "attribute" [("name", attr)];;
      modify (λ b,
        set_select_attributes (select_attributes b ++ attributes) b)) b
      = (Ok tt, b') ∧
    entity b' = Some r ∧
    get_ref (store b') r =
      Some (Elem (tag e) (attrib e) (text e) (tail e)
              (children e
               ++ List.map (λ n, new_element "attribute" [("name", n)]) l)) ∧
    select_attributes b' =
      select_attributes b ++ concat (repeat attributes (length l)).
Proof.
  induction l as [|x l IH]; intros b r e He Hn.
  - exists b. rewrite !app_nil_r. by destruct e.
  - set (b1 := set_select_attributes (select_attributes b ++ attributes)
                 (with_child b r "attribute" [("name", x)])).
    destruct (IH b1 r (append e (new_element "attribute" [("name", x)])))
      as (b' & Hrun & He' & Hn' & Hs'); [done| |].
    { unfold b1, with_child; simpl. by rewrite get_ref_alter_ref, Hn. }
    exists b'. split; [|split; [done|split]].
    + cbn [for_each]. unfold mbind, M_bind, bind, gets in *.
      rewrite He, (SubElement_ok b r e _ _ Hn). exact Hrun.
    + rewrite Hn'. destruct e; simpl. by rewrite <- app_assoc.
    + rewrite Hs'. simpl. by rewrite <- app_assoc.
Qed.

(** X13. [select] of names that are not the lone sentinel, on a builder
    whose entity reference resolves, returns and appends one [attribute]
    node per name, in order, each with the attribute [name] only; a
    sentinel beside other names is a name; and the recorded list grows by
    the whole argument list once per name. *)
Lemma select_names_run (attributes : list string) b r e :
  attributes ≠ ["ALL"] →
  entity b = Some r →
  get_ref (store b) r = Some e →
  ∃ b',
    select attributes b = (Ok self, b') ∧
    entity_node b' =
      Some (Elem (tag e) (attrib e) (text e) (tail e)
              (children e
               ++ List.map (λ n, Elem "attribute" [("name", n)] None None [])
                    attributes)) ∧
    select_attributes b' =
      select_attributes b
      ++ concat (repeat attributes (length attributes)).
Proof.
  intros Hne He Hn.
  destruct (select_loop attributes attributes b r e He Hn)
    as (b' & Hrun & He' & Hn' & Hs').
  exists b'. split; [|split; [|done]].
  - unfold select. rewrite bool_decide_eq_false_2 by done.
    unfold mbind, M_bind, bind in *. by rewrite Hrun.
  - unfold entity_node. rewrite He'. exact Hn'.
Qed.

(** ** No reference dangles

    The exception [Dangling] of the model is never raised by a builder the
    code can make, and neither is the [AttributeError] of reading
    [filter_root] before it is set. *)

Lemma get_alter_at_append (k : Element) (p : path) : ∀ (p' : path) (t : Element),
  is_Some (get p' t) →
  is_Some (get p' (alter_at (λ x, append x k) p t)).
Proof.
  induction p as [|j p IH]; intros [|i q] [tg a x y c]; simpl; try by eauto.
  - destruct (c !! i) as [z|] eqn:Hz; simpl; [|by intros [? ?]].
    by rewrite (lookup_app_l_Some _ _ _ _ Hz).
  - destruct (decide (j = i)) as [->|Hne].
    + rewrite list_lookup_alter_eq. destruct (c !! i); simpl; [apply IH|done].
    + by rewrite list_lookup_alter_ne.
Qed.

Lemma get_ref_alter_ref_append (k : Element) (r r' : ref) (st : list Element) :
  is_Some (get_ref st r') →
  is_Some (get_ref (alter_ref (λ x, append x k) r st) r').
Proof.
  unfold get_ref, alter_ref.
  destruct (decide (ref_doc r = ref_doc r')) as [<-|Hne].
  - rewrite list_lookup_alter_eq.
    destruct (st !! ref_doc r); simpl; [apply get_alter_at_append|done].
  - by rewrite list_lookup_alter_ne.
Qed.

Lemma get_ref_app (st : list Element) (t : Element) (r : ref) :
  is_Some (get_ref st r) → is_Some (get_ref (st ++ [t]) r).
Proof.
  unfold get_ref. destruct (st !! ref_doc r) as [x|] eqn:Hx; simpl.
  - by rewrite (lookup_app_l_Some _ _ _ _ Hx).
  - by intros [? ?].
Qed.

(** [SubElement] on the entity reference or on the filter reference. *)
Lemma SubElement_resolves b (parent : option ref) tg a :
  refs_resolve b →
  (∀ r, parent = Some r → is_Some (get_ref (store b) r)) →
  let x := SubElement parent tg a b in
  raised x ≠ Some Dangling ∧ raised x ≠ Some AttributeError ∧
  refs_resolve x.2 ∧
  entity x.2 = entity b ∧ filter_root x.2 = filter_root b ∧
  filters x.2 = filters b ∧
  (∀ r, x.1 = Ok r → is_Some (get_ref (store x.2) r)).
Proof.
  intros (Hroot & He & Hfr & Hf) Hp. destruct parent as [r|]; [|done].
  destruct (Hp r eq_refl) as [e Hr]. simpl.
  rewrite (SubElement_ok b r e _ _ Hr). unfold raised; simpl.
  split; [done|]. split; [done|]. split; [|split; [done|]].
  - repeat split; simpl; [|by eauto using get_ref_alter_ref_append..|done].
    by apply get_ref_alter_ref_append.
  - split; [done|]. split; [done|]. intros ? [= <-].
    unfold get_ref, alter_ref in *; simpl.
    rewrite list_lookup_alter_eq.
    destruct (store b !! ref_doc r) as [t|]; simpl in *; [|done].
    clear -Hr. revert t e Hr.
    induction (ref_path r) as [|i p IH]; intros [tg' a' x y c] e; simpl.
    + intros [= <-]; simpl. by rewrite list_lookup_middle.
    + rewrite list_lookup_alter_eq.
      destruct (c !! i); simpl; [apply IH|done].
Qed.

Lemma refs_frame (b b' : XMLQueryBuilder) :
  store b' = store b → root b' = root b → entity b' = entity b →
  filter_root b' = filter_root b → filters b' = filters b →
  refs_resolve b → refs_resolve b'.
Proof.
  unfold refs_resolve, root_node. intros -> -> -> -> ->. done.
Qed.

(** [SubElement(self.entity, ...)] followed by a step that keeps the
    references. *)
Lemma keeps_SubElement_entity {A} tg a (k : ref → M A) :
  (∀ r, keeps_refs (k r)) →
  keeps_refs (e ← gets entity; r ← SubElement e tg a; k r).
Proof.
  intros Hk b Hb. unfold mbind, M_bind, bind, gets.
  destruct (SubElement_resolves b (entity b) tg a Hb)
    as (H1 & H2 & H3 & _); [by apply Hb|].
  unfold raised in *.
  destruct (SubElement (entity b) tg a b) as [[r|ex] b1]; simpl in *;
    [by apply Hk|done].
Qed.

Lemma keeps_ret {A} (a : A) : keeps_refs (ret a).
Proof. by intros b Hb. Qed.

Lemma keeps_modify_frame {A} (f : XMLQueryBuilder → XMLQueryBuilder) (a : A) :
  (∀ b, store (f b) = store b ∧ root (f b) = root b ∧ entity (f b) = entity b
        ∧ filter_root (f b) = filter_root b ∧ filters (f b) = filters b) →
  keeps_refs (modify f;; ret a).
Proof.
  intros Hf b Hb. destruct (Hf b) as (? & ? & ? & ? & ?).
  split; [done|]. split; [done|]. by apply (refs_frame b).
Qed.

Lemma keeps_for_each {A} (l : list A) (body : A → M unit) :
  (∀ x, keeps_refs (body x)) → keeps_refs (for_each l body).
Proof.
  intros Hbody. induction l as [|x l IH]; intros b Hb; [done|].
  cbn [for_each]. unfold mbind, M_bind, bind.
  destruct (Hbody x b Hb) as (H1 & H2 & H3). unfold raised in *.
  destruct (body x b) as [[[]|ex] b1]; simpl in *; [by apply IH|done].
Qed.

Lemma keeps_then {A B} (m : M A) (k : M B) :
  keeps_refs m → keeps_refs k → keeps_refs (m;; k).
Proof.
  intros Hm Hk b Hb. unfold mbind, M_bind, bind.
  destruct (Hm b Hb) as (H1 & H2 & H3). unfold raised in *.
  destruct (m b) as [[x|ex] b1]; simpl in *; [by apply Hk|done].
Qed.

Lemma keeps_select l : keeps_refs (select l).
Proof.
  unfold select. apply keeps_then; [|apply keeps_ret].
  destruct (bool_decide _).
  - apply (keeps_SubElement_entity _ _ (λ _, ret tt)). intros _. apply keeps_ret.
  - apply keeps_for_each. intros x.
    apply (keeps_SubElement_entity _ _ (λ _, modify _)). intros _ b Hb.
    split; [done|]. split; [done|]. by apply (refs_frame b).
Qed.

Lemma keeps_link_entity n a f t k : keeps_refs (link_entity n a f t k).
Proof.
  unfold link_entity. apply keeps_SubElement_entity. intros r.
  by apply keeps_modify_frame.
Qed.

Lemma keeps_add_order a d : keeps_refs (add_order a d).
Proof.
  unfold add_order. apply keeps_SubElement_entity. intros r.
  by apply keeps_modify_frame.
Qed.

Lemma keeps_add_aggregate a al ty : keeps_refs (add_aggregate a al ty).
Proof.
  unfold add_aggregate. apply keeps_SubElement_entity. intros r.
  by apply keeps_modify_frame.
Qed.

Lemma keeps_add_group_by l : keeps_refs (add_group_by l).
Proof.
  unfold add_group_by. apply keeps_then; [|apply keeps_ret].
  apply keeps_for_each. intros x.
  apply (keeps_SubElement_entity _ _ (λ _, ret tt)). intros _. apply keeps_ret.
Qed.

(** [str(value)] raises nothing but [ValueError]. *)
Lemma py_str_raises (v : pyvalue) (ex : exn) :
  py_str v = Raise ex → ex = ValueError.
Proof.
  destruct v as [s|z|[|]|]; cbn [py_str]; try done.
  destruct (Nat.ltb _ _); [|done]. by intros [= <-].
Qed.

(** The second half of [add_filter], once [filter_root] is set. *)
Lemma keeps_add_condition (v : pyvalue)
    (a : string → list (string * string)) :
  ∀ b, refs_resolve b → is_Some (filter_root b) →
    let x := (fr ← get_filter_root;
              s ← eval (py_str v);
              SubElement (Some fr) "condition" (a s);; ret self) b in
    raised x ≠ Some Dangling ∧ raised x ≠ Some AttributeError ∧
    refs_resolve x.2.
Proof.
  intros b Hb [fr Hfr]. simpl.
  unfold get_filter_root, eval, mbind, M_bind, bind, gets, mret, M_ret, ret.
  rewrite Hfr. destruct (py_str v) as [s|ex] eqn:Hv.
  - destruct (SubElement_resolves b (Some fr) "condition" (a s) Hb)
      as (H1 & H2 & H3 & _).
    { intros ? [= <-]. by apply Hb. }
    unfold raised in *.
    by destruct (SubElement (Some fr) "condition" (a s) b) as [[r|ex] b1].
  - apply py_str_raises in Hv as ->. by unfold raised.
Qed.

Lemma keeps_add_filter a o v : keeps_refs (add_filter a o v).
Proof.
  intros b Hb.
  set (rest := fr ← get_filter_root;
               s ← eval (py_str v);
               SubElement (Some fr) "condition"
                 [("attribute", a); ("operator", o); ("value", s)];;
               ret self).
  destruct (decide (filters b = [])) as [Hf|Hf].
  - assert (Hrun : add_filter a o v b =
      match SubElement (entity b) "filter" [("type", "and")] b with
      | (Ok f, b1) =>
          rest (set_filters (filters b1 ++ [f]) (set_filter_root (Some f) b1))
      | (Raise e, b1) => (Raise e, b1)
      end).
    { unfold add_filter, mbind, M_bind, bind, gets, modify. rewrite Hf.
      rewrite bool_decide_eq_true_2 by done.
      by destruct (SubElement _ _ _ _) as [[f|e] b1]. }
    rewrite Hrun. clear Hrun.
    destruct (SubElement_resolves b (entity b) "filter" [("type", "and")] Hb)
      as (H1 & H2 & H3 & He & _ & _ & Hr); [by apply Hb|].
    unfold raised in *.
    destruct (SubElement (entity b) "filter" [("type", "and")] b)
      as [[r|ex] b1]; simpl in *; [|done].
    apply (keeps_add_condition v
             (λ s, [("attribute", a); ("operator", o); ("value", s)]));
      [|by eexists].
    destruct H3 as (? & ? & ? & ?). repeat split; simpl; try done.
    intros ? [= <-]. by apply Hr.
  - assert (Hrun : add_filter a o v b = rest b).
    { unfold add_filter, mbind, M_bind, bind, gets.
      by rewrite bool_decide_eq_false_2 by done. }
    rewrite Hrun.
    apply (keeps_add_condition v
             (λ s, [("attribute", a); ("operator", o); ("value", s)]));
      [done|]. by apply Hb.
Qed.

Lemma keeps_do_call c : keeps_refs (do_call c).
Proof.
  destruct c; simpl;
    auto using keeps_select, keeps_link_entity, keeps_add_filter,
      keeps_add_order, keeps_add_aggregate, keeps_add_group_by.
Qed.

(** ** Theorems on single calls *)

(** C10. [select()] with no argument is a no-op: it returns the builder
    itself and leaves the whole object as it was: no node is appended and
    the recorded attribute list is unchanged. *)
Theorem select_nothing_is_noop (b : XMLQueryBuilder) :
  select [] b = (Ok self, b).
Proof. reflexivity. Qed.

(** C7. On a builder that has an entity node, [select("ALL")] returns the
    builder and appends to the children of the entity node exactly one
    node, labelled [all-attributes], without attributes; it appends no
    [attribute] node and records no name. *)
Theorem select_ALL_appends_one_marker
    (b : XMLQueryBuilder) (r : ref) (e : Element) :
  entity b = Some r →
  get_ref (store b) r = Some e →
  ∃ b',
    select ["ALL"] b = (Ok self, b') ∧
    store b' =
      alter_ref (λ x, append x (Elem "all-attributes" [] None None [])) r
        (store b) ∧
    entity_node b' =
      Some (Elem (tag e) (attrib e) (text e) (tail e)
              (children e ++ [Elem "all-attributes" [] None None []])) ∧
    (children_tagged "attribute" <$> entity_node b') =
      Some (children_tagged "attribute" e) ∧
    select_attributes b' = select_attributes b ∧
    entity b' = entity b ∧ root b' = root b.
Proof.
  intros He Hn. eexists. split; [by apply (select_ALL_run b r e)|].
  split; [done|].
  rewrite (entity_node_with_child b r e He Hn).
  destruct e as [t a x y c]; simpl. repeat split.
  unfold children_tagged; simpl.
  by rewrite List.filter_app, app_nil_r.
Qed.

(** [select("ALL")] on [XMLQueryBuilder("account")]. *)
Lemma select_ALL_appends_one_marker_witness :
  ∃ b',
    select ["ALL"] (__init__ "account") = (Ok self, b') ∧
    store b' =
      alter_ref (λ x, append x (Elem "all-attributes" [] None None []))
        (Ref 0 [0%nat]) (store (__init__ "account")) ∧
    entity_node b' =
      Some (Elem "entity" [("name", "account")] None None
              ([] ++ [Elem "all-attributes" [] None None []])) ∧
    (children_tagged "attribute" <$> entity_node b') =
      Some (children_tagged "attribute"
              (Elem "entity" [("name", "account")] None None [])) ∧
    select_attributes b' = select_attributes (__init__ "account") ∧
    entity b' = entity (__init__ "account") ∧
    root b' = root (__init__ "account").
Proof.
  exact (select_ALL_appends_one_marker (__init__ "account") (Ref 0 [0%nat])
           (Elem "entity" [("name", "account")] None None [])
           eq_refl eq_refl).
Defined.

(** C7 as stated fails on a builder that has loaded a document without
    [entity] element, which [add_fetch_xml] accepts: the entity reference
    is [None], there is no entity node, and [select("ALL")] raises
    [TypeError] and appends nothing. *)
Lemma select_ALL_without_entity :
  let b := (add_fetch_xml ET.fromstring "<fetch></fetch>"
              (__init__ "account")).2 in
  add_fetch_xml ET.fromstring "<fetch></fetch>" (__init__ "account")
    = (Ok self, b) ∧
  reachable ET.fromstring b ∧
  entity b = None ∧
  select ["ALL"] b = (Raise TypeError, b) ∧
  ¬ (∃ b', select ["ALL"] b = (Ok self, b')).
Proof.
  split; [by vm_compute|]. split; [apply reach_add_fetch_xml, reach_init|].
  split; [by vm_compute|]. split; [by vm_compute|].
  intros [b' Hb']. vm_compute in Hb'. discriminate Hb'.
Qed.

(** C5. On a builder that has an entity node, [link_entity(name)] with no
    other argument returns the builder and appends to the children of the
    entity node one [link-entity] node whose attributes are, in this
    order, [name=name], [alias=name], [from=name+"id"], [to=name+"id"] and
    [link-type="inner"]. *)
Theorem link_entity_defaults
    (b : XMLQueryBuilder) (r : ref) (e : Element) (name : string) :
  entity b = Some r →
  get_ref (store b) r = Some e →
  ∃ b',
    link_entity name None None None None b = (Ok self, b') ∧
    entity_node b' =
      Some (Elem (tag e) (attrib e) (text e) (tail e)
              (children e ++
               [Elem "link-entity"
                  [("name", name); ("alias", name);
                   ("from", name +:+ "id"); ("to", name +:+ "id");
                   ("link-type", "inner")] None None []])).
Proof.
  intros He Hn. eexists.
  split; [by apply (link_entity_run b r e He Hn)|].
  unfold entity_node; simpl. rewrite He; simpl.
  rewrite get_ref_alter_ref, Hn. by destruct e.
Qed.

(** [link_entity("contact")] on [XMLQueryBuilder("account")] yields
    [alias="contact" from="contactid" to="contactid" link-type="inner"]. *)
Lemma link_entity_defaults_witness :
  ∃ b',
    link_entity "contact" None None None None (__init__ "account")
      = (Ok self, b') ∧
    entity_node b' =
      Some (Elem "entity" [("name", "account")] None None
              [Elem "link-entity"
                 [("name", "contact"); ("alias", "contact");
                  ("from", "contactid"); ("to", "contactid");
                  ("link-type", "inner")] None None []]).
Proof.
  exact (link_entity_defaults (__init__ "account") (Ref 0 [0%nat])
           (Elem "entity" [("name", "account")] None None []) "contact"
           eq_refl eq_refl).
Defined.

(** C4. [select("name", "accountid")] on a new builder appends the two
    [attribute] nodes, in order, each with the attribute [name] only; but
    the recorded list holds each name twice: the call to [extend] sits
    inside the loop over the names, so [select] of n names records the n
    names n times. *)
Theorem select_records_every_name_n_times :
  ∃ b',
    select ["name"; "accountid"] (__init__ "account") = (Ok self, b') ∧
    (children <$> entity_node b') =
      Some [Elem "attribute" [("name", "name")] None None [];
            Elem "attribute" [("name", "accountid")] None None []] ∧
    select_attributes b' = ["name"; "accountid"; "name"; "accountid"].
Proof. eexists. split; [reflexivity|]. split; reflexivity. Qed.

(** ** Theorems on reading XML text *)

Section Reading.

Variable fromstring : string → option Element.

(** What [add_fetch_xml] does with a text that parses. *)
Lemma add_fetch_xml_run (s : string) (t : Element) (b : XMLQueryBuilder) :
  fromstring s = Some t →
  add_fetch_xml fromstring s b =
    (Ok self,
     set_entity
       ((λ pe : path * Element, Ref (length (store b)) pe.1)
          <$> find_descendant "entity" t)
       (set_root (Ref (length (store b)) [])
          (set_store (store b ++ [t]) b))).
Proof.
  intros H. unfold add_fetch_xml, find. rewrite H. run_M.
  by rewrite get_ref_alloc.
Qed.

End Reading.

(** [find] gives the path of the node it gives. *)
Lemma find_descendant_get (tg : string) (e : Element) :
  ∀ p d, find_descendant tg e = Some (p, d) → get p e = Some d.
Proof.
  induction e as [t a x y c IH] using Element_ind. simpl.
  assert (Hgo : ∀ pre p d,
    (fix go (i : nat) (l : list Element) : option (path * Element) :=
       match l with
       | [] => None
       | k :: l' =>
           if String.eqb (tag k) tg then Some ([i], k)
           else match find_descendant tg k with
                | Some (p, d) => Some (i :: p, d)
                | None => go (S i) l'
                end
       end) (length pre) c = Some (p, d) →
    get p (Elem t a x y (pre ++ c)) = Some d).
  { induction IH as [|k l Hk _ IHl]; intros pre p d; [done|].
    destruct (String.eqb (tag k) tg).
    - intros [= <- <-]. simpl. by rewrite list_lookup_middle.
    - destruct (find_descendant tg k) as [[q d']|] eqn:Hq.
      + intros [= <- <-]. simpl. rewrite list_lookup_middle by done.
        simpl. by apply Hk.
      + intros H. specialize (IHl (pre ++ [k]) p d).
        rewrite length_app, Nat.add_1_r, <- app_assoc in IHl. by apply IHl. }
  intros p d. apply (Hgo []).
Qed.

(** [add_fetch_xml] and [to_string] keep the references, whatever the
    library does. *)
Lemma keeps_add_fetch_xml (fromstring : string → option Element) s :
  keeps_refs (add_fetch_xml fromstring s).
Proof.
  intros b Hb. destruct (fromstring s) as [t|] eqn:Hs.
  - rewrite (add_fetch_xml_run fromstring s t b Hs). unfold raised; simpl.
    split; [done|]. split; [done|].
    destruct Hb as (Hroot & He & Hfr & Hf).
    split; [|split; [|split]]; simpl.
    + unfold root_node; simpl. rewrite get_ref_alloc. by eexists.
    + intros r.
      destruct (find_descendant "entity" t) as [[p d]|] eqn:Hp; [|done].
      intros [= <-]. unfold get_ref; simpl.
      rewrite list_lookup_middle by done. simpl.
      rewrite (find_descendant_get _ _ _ _ Hp). by eexists.
    + intros r Hr. by apply get_ref_app, Hfr.
    + done.
  - unfold add_fetch_xml. by rewrite Hs.
Qed.

Lemma keeps_to_string (toprettyxml : string → option string) pretty :
  keeps_refs (to_string toprettyxml pretty).
Proof.
  intros b Hb. pose proof Hb as ([t Ht] & _).
  unfold to_string, raised. run_M. fold (root_node b). rewrite Ht.
  destruct pretty; [|done]. by destruct (toprettyxml _).
Qed.

Lemma refs_resolve_init (nm : string) : refs_resolve (__init__ nm).
Proof.
  repeat split; simpl.
  - by eexists.
  - intros ? [= <-]. by eexists.
  - done.
  - done.
Qed.

(** The builder [from_fetch_xml] returns. *)
Lemma refs_resolve_from_fetch_xml (fromstring : string → option Element) s b :
  from_fetch_xml fromstring s = Ok b → refs_resolve b.
Proof.
  unfold from_fetch_xml. destruct (fromstring s) as [t|] eqn:Hs; [|done].
  destruct (find_descendant "entity" t) as [[p e]|]; [|done].
  destruct (getitem "name" (attrib e)) as [nm|]; [|done].
  destruct (keeps_add_fetch_xml fromstring s (__init__ nm)
              (refs_resolve_init nm)) as (_ & _ & H).
  destruct (add_fetch_xml fromstring s (__init__ nm)) as [[x|ex] b1]; [|done].
  by intros [= <-].
Qed.

Lemma reachable_resolves fromstring b :
  reachable fromstring b → refs_resolve b.
Proof.
  induction 1 as [nm|s b H|c b _ IH|s b _ IH].
  - apply refs_resolve_init.
  - by apply (refs_resolve_from_fetch_xml fromstring s).
  - by apply keeps_do_call.
  - by apply keeps_add_fetch_xml.
Qed.

(** No call on a builder the code can make raises the [Dangling] of the
    model. *)
Lemma reachable_never_dangles fromstring toprettyxml b :
  reachable fromstring b →
  (∀ c, raised (do_call c b) ≠ Some Dangling) ∧
  (∀ s, raised (add_fetch_xml fromstring s b) ≠ Some Dangling) ∧
  (∀ p, raised (to_string toprettyxml p b) ≠ Some Dangling).
Proof.
  intros Hb%reachable_resolves. repeat split; intros x.
  - by apply keeps_do_call.
  - by apply keeps_add_fetch_xml.
  - by apply keeps_to_string.
Qed.

(** C6. When the text is not well-formed XML ([fromstring] raises
    [ParseError]), [add_fetch_xml] raises [ParseError] and leaves the whole
    object as it was, root and entity references included; and
    [from_fetch_xml] raises [ParseError] and returns no builder. *)
Theorem parse_error_changes_nothing
    (fromstring : string → option Element) (s : string)
    (b : XMLQueryBuilder) :
  fromstring s = None →
  add_fetch_xml fromstring s b = (Raise ParseError, b) ∧
  from_fetch_xml fromstring s = Raise ParseError.
Proof.
  intros H. unfold add_fetch_xml, from_fetch_xml. by rewrite H.
Qed.

(** The text [<not-xml] on [XMLQueryBuilder("account")]. *)
Lemma parse_error_changes_nothing_witness :
  ET.fromstring "<not-xml" = None ∧
  add_fetch_xml ET.fromstring "<not-xml" (__init__ "account")
    = (Raise ParseError, __init__ "account") ∧
  from_fetch_xml ET.fromstring "<not-xml" = Raise ParseError.
Proof.
  split; [reflexivity|].
  exact (parse_error_changes_nothing ET.fromstring "<not-xml"
           (__init__ "account") eq_refl).
Defined.

(** C8. [to_string] leaves the object as it was, and a second call with
    the same flag gives what the first gave. *)
Theorem to_string_twice
    (toprettyxml : string → option string) (pretty : bool)
    (b : XMLQueryBuilder) :
  (to_string toprettyxml pretty b).2 = b ∧
  to_string toprettyxml pretty (to_string toprettyxml pretty b).2
    = to_string toprettyxml pretty b.
Proof.
  assert (H : (to_string toprettyxml pretty b).2 = b).
  { unfold to_string. run_M.
    destruct (get_ref (store b) (root b)); [|done].
    destruct pretty; [|done]. by destruct (toprettyxml _). }
  split; [done|]. by rewrite H.
Qed.

(** C9. When the text is well-formed and no element of it is labelled
    [entity], [add_fetch_xml] returns the builder without raising: the root
    is the parsed root and the entity reference is [None].  [to_string]
    then writes the new root, and the calls that append to the entity node
    raise [TypeError] and leave the object as it is. *)
Theorem add_fetch_xml_without_entity
    (fromstring : string → option Element)
    (toprettyxml : string → option string)
    (s : string) (t : Element) (b : XMLQueryBuilder) :
  fromstring s = Some t →
  has_tag "entity" t = false →
  ∃ b',
    add_fetch_xml fromstring s b = (Ok self, b') ∧
    root_node b' = Some t ∧
    entity b' = None ∧
    to_string toprettyxml false b' = (Ok (tostring t), b') ∧
    select ["ALL"] b' = (Raise TypeError, b') ∧
    (∀ n a f k l, link_entity n a f k l b' = (Raise TypeError, b')) ∧
    (∀ a d, add_order a d b' = (Raise TypeError, b')) ∧
    (∀ a al ty, add_aggregate a al ty b' = (Raise TypeError, b')).
Proof.
  intros Hs Ht. eexists. split; [by apply add_fetch_xml_run|].
  rewrite (find_descendant_None _ _ Ht); simpl.
  assert (Hroot : get_ref (store b ++ [t]) (Ref (length (store b)) []) = Some t)
    by apply get_ref_alloc.
  split; [exact Hroot|]. split; [done|].
  split; [|done].
  unfold to_string. run_M. by rewrite Hroot.
Qed.

(** The text [<fetch></fetch>] on [XMLQueryBuilder("account")]. *)
Lemma add_fetch_xml_without_entity_witness :
  ∃ b',
    add_fetch_xml ET.fromstring "<fetch></fetch>" (__init__ "account")
      = (Ok self, b') ∧
    root_node b' = Some (Elem "fetch" [] None None []) ∧
    entity b' = None ∧
    to_string (λ _, None) false b'
      = (Ok (tostring (Elem "fetch" [] None None [])), b') ∧
    select ["ALL"] b' = (Raise TypeError, b') ∧
    (∀ n a f k l, link_entity n a f k l b' = (Raise TypeError, b')) ∧
    (∀ a d, add_order a d b' = (Raise TypeError, b')) ∧
    (∀ a al ty, add_aggregate a al ty b' = (Raise TypeError, b')).
Proof.
  exact (add_fetch_xml_without_entity ET.fromstring (λ _, None)
           "<fetch></fetch>" (Elem "fetch" [] None None [])
           (__init__ "account") eq_refl eq_refl).
Defined.

(** C3. When the text is well-formed and no element of it is labelled
    [entity], [from_fetch_xml] raises and returns no builder: [find] gives
    [None], and reading [.attrib] of it raises [AttributeError], the
    structural error of a document without entity. *)
Theorem from_fetch_xml_without_entity
    (fromstring : string → option Element) (s : string) (t : Element) :
  fromstring s = Some t →
  has_tag "entity" t = false →
  from_fetch_xml fromstring s = Raise AttributeError.
Proof.
  intros Hs Ht. unfold from_fetch_xml.
  by rewrite Hs, (find_descendant_None _ _ Ht).
Qed.

(** [from_fetch_xml("<fetch></fetch>")]. *)
Lemma from_fetch_xml_without_entity_witness :
  ET.fromstring "<fetch></fetch>" = Some (Elem "fetch" [] None None []) ∧
  from_fetch_xml ET.fromstring "<fetch></fetch>" = Raise AttributeError.
Proof.
  split; [reflexivity|].
  exact (from_fetch_xml_without_entity ET.fromstring "<fetch></fetch>"
           (Elem "fetch" [] None None []) eq_refl eq_refl).
Defined.

(** ** Theorems on chains of builder calls *)




(** ** The whole tree of a chain of builder calls *)

Lemma foldl_step_filtered cs : ∀ pre conds post,
  foldl step (pre ++ filter_node conds :: post, Some (length pre)) cs
  = (pre ++ filter_node (conds ++ conditions_of cs) :: post ++ nodes_of cs,
     Some (length pre)).
Proof.
  induction cs as [|c cs IH]; intros pre conds post.
  - by rewrite !app_nil_r.
  - cbn [foldl].
    assert (Happ : (∀ a o v, c ≠ AddFilter a o v) →
      step (pre ++ filter_node conds :: post, Some (length pre)) c
      = (pre ++ filter_node conds :: (post ++ appended c), Some (length pre))).
    { intros Hc. destruct c; try (by exfalso; eapply Hc);
        cbn [step fst snd]; by rewrite <- app_assoc. }
    destruct c as [l|n a f t k|a o v|a d|a al ty|l];
      try (rewrite Happ by done; rewrite IH; cbn [nodes_of conditions_of];
           by rewrite <- !app_assoc).
    clear Happ. cbn [step fst snd nodes_of conditions_of appended app].
    unfold condition_of. destruct (py_str v) as [s|ex].
    + replace (length pre) with (length pre + 0)%nat at 1 by lia.
      rewrite alter_app_r. cbn [alter list_alter append filter_node].
      change (Elem "filter" [("type", "and")] None None
                (conds ++ [condition_node a o s]))
        with (filter_node (conds ++ [condition_node a o s])).
      rewrite IH. by rewrite <- app_assoc.
    + by rewrite IH.
Qed.

Lemma foldl_step_children cs : ∀ kids,
  (foldl step (kids, None) cs).1 = kids ++ entity_children cs.
Proof.
  induction cs as [|c cs IH]; intros kids; [by rewrite app_nil_r|].
  cbn [foldl].
  destruct c as [l|n a f t k|a o v|a d|a al ty|l];
    try (cbn [step fst snd entity_children]; rewrite IH;
         by rewrite <- app_assoc).
  cbn [step fst snd entity_children].
  change (kids ++ [filter_node (condition_of a o v)])
    with (kids ++ filter_node (condition_of a o v) :: []).
  rewrite foldl_step_filtered. by cbn.
Qed.

(** ** Calls only append *)

Lemma extends_refl (e : Element) : extends e e.
Proof.
  induction e as [t a x y c IH] using Element_ind.
  rewrite <- (app_nil_r c) at 2. constructor.
  induction IH; by constructor.
Qed.

Lemma extends_trans (e1 : Element) : ∀ e2 e3,
  extends e1 e2 → extends e2 e3 → extends e1 e3.
Proof.
  induction e1 as [t a x y c1 IH] using Element_ind. intros e2 e3 H12 H23.
  inversion H12 as [? ? ? ? ? c2 m2 Hc12]; subst.
  inversion H23 as [? ? ? ? ? c3 m3 Hc23]; subst.
  apply Forall2_app_inv_l in Hc23 as (c3a & c3b & Ha & Hb & ->).
  rewrite <- app_assoc. constructor.
  clear -IH Hc12 Ha. revert c3a Ha.
  induction Hc12 as [|k1 k2 l1 l2 Hk _ IHl]; intros c3a Ha.
  - inversion Ha; subst. constructor.
  - inversion Ha as [|? k3 ? l3 Hk3 Hl3]; subst.
    inversion IH as [|? ? Hk1 Hl1]; subst.
    constructor; [by eapply Hk1|by apply IHl].
Qed.

Lemma Forall2_extends_refl (l : list Element) : Forall2 extends l l.
Proof. induction l; constructor; [apply extends_refl|done]. Qed.

Lemma Forall2_extends_trans (l1 l2 l3 : list Element) :
  Forall2 extends l1 l2 → Forall2 extends l2 l3 → Forall2 extends l1 l3.
Proof.
  intros H12. revert l3. induction H12 as [|x y l1 l2 Hxy _ IH]; intros l3 H23.
  - inversion H23; subst. constructor.
  - inversion H23; subst. constructor; [by eapply extends_trans|by apply IH].
Qed.

Lemma extends_alter_at (k : Element) (p : path) : ∀ e,
  extends e (alter_at (λ x, append x k) p e).
Proof.
  induction p as [|i p IH]; intros [t a x y c]; simpl.
  - constructor. apply Forall2_extends_refl.
  - rewrite <- (app_nil_r (alter _ i c)). constructor.
    apply Forall2_alter_r; [apply Forall2_extends_refl|].
    intros e1 e2 _ _ H. eapply extends_trans; [exact H|apply IH].
Qed.

Lemma extends_alter_ref (k : Element) (r : ref) (st : list Element) :
  Forall2 extends st (alter_ref (λ x, append x k) r st).
Proof.
  unfold alter_ref. apply Forall2_alter_r; [apply Forall2_extends_refl|].
  intros e1 e2 _ _ H. eapply extends_trans; [exact H|apply extends_alter_at].
Qed.

Lemma grows_ret {A} (a : A) : grows (ret a).
Proof. intros b. repeat split. apply Forall2_extends_refl. Qed.

Lemma grows_raise {A} (e : exn) : grows (@raise A e).
Proof. intros b. repeat split. apply Forall2_extends_refl. Qed.

Lemma grows_gets {A} (f : XMLQueryBuilder → A) : grows (gets f).
Proof. intros b. repeat split. apply Forall2_extends_refl. Qed.

Lemma grows_eval {A} (r : result A) : grows (eval r).
Proof. intros b. repeat split. apply Forall2_extends_refl. Qed.

Lemma grows_bind {A B} (m : M A) (k : A → M B) :
  grows m → (∀ a, grows (k a)) → grows (m ≫= k).
Proof.
  intros Hm Hk b. unfold mbind, M_bind, bind.
  destruct (Hm b) as (H1 & H2 & H3 & H4).
  destruct (m b) as [[a|e] b1]; simpl in *; [|done].
  destruct (Hk a b1) as (H5 & H6 & H7 & H8).
  repeat split; try congruence. by eapply Forall2_extends_trans.
Qed.

Lemma grows_modify (f : XMLQueryBuilder → XMLQueryBuilder) :
  (∀ b, store (f b) = store b ∧ root (f b) = root b ∧ entity (f b) = entity b
        ∧ root_entity_name (f b) = root_entity_name b) →
  grows (modify f).
Proof.
  intros Hf b. destruct (Hf b) as (Hs & ? & ? & ?). simpl.
  repeat split; try done. rewrite Hs. apply Forall2_extends_refl.
Qed.

Lemma grows_SubElement parent tg a : grows (SubElement parent tg a).
Proof.
  intros b. destruct parent as [r|]; [|apply (grows_raise TypeError)].
  destruct (get_ref (store b) r) as [e|] eqn:He.
  - rewrite (SubElement_ok b r e _ _ He). simpl. repeat split.
    apply extends_alter_ref.
  - unfold SubElement. run_M. rewrite He. repeat split.
    apply Forall2_extends_refl.
Qed.

Lemma grows_for_each {A} (l : list A) (body : A → M unit) :
  (∀ x, grows (body x)) → grows (for_each l body).
Proof.
  intros Hbody. induction l as [|x l IH]; [apply grows_ret|].
  cbn [for_each]. by apply grows_bind.
Qed.

(** Every step of a method is one of the above. *)
Ltac grows_steps :=
  repeat first
    [ apply grows_ret | apply grows_raise | apply grows_gets
    | apply grows_eval | apply grows_SubElement
    | apply grows_modify; by intros
    | apply grows_for_each; intros
    | apply grows_bind; [|intros] ].

Lemma grows_do_call c : grows (do_call c).
Proof.
  destruct c; cbn [do_call];
    unfold select, link_entity, add_filter, add_order, add_aggregate,
      add_group_by, get_filter_root.
  - apply grows_bind; [|intros; apply grows_ret].
    destruct (bool_decide _); grows_steps.
  - grows_steps.
  - apply grows_bind; [grows_steps|intros fs].
    apply grows_bind.
    + destruct (bool_decide _); grows_steps.
    + intros _. apply grows_bind; [|intros; grows_steps].
      apply grows_bind; [grows_steps|]. intros [r|]; grows_steps.
  - grows_steps.
  - grows_steps.
  - grows_steps.
Qed.

Lemma grows_chain cs : grows (chain cs).
Proof.
  induction cs as [|c cs IH]; [apply grows_ret|].
  cbn [chain]. apply grows_bind; [apply grows_do_call|done].
Qed.

Lemma get_extends (p : path) : ∀ t t' e,
  extends t t' → get p t = Some e →
  ∃ e', get p t' = Some e' ∧ extends e e'.
Proof.
  induction p as [|i p IH]; intros t t' e Ht; simpl.
  - intros [= <-]. by exists t'.
  - inversion Ht as [? ? ? ? c c' more Hc]; subst. simpl.
    destruct (c !! i) as [k|] eqn:Hk; [|done]. simpl. intros Hget.
    destruct (Forall2_lookup_l _ _ _ _ _ Hc Hk) as (k' & Hk' & Hkk).
    rewrite (lookup_app_l_Some _ _ _ _ Hk'). simpl. by eapply IH.
Qed.

Lemma get_ref_extends (st st' : list Element) (r : ref) (e : Element) :
  Forall2 extends st st' → get_ref st r = Some e →
  ∃ e', get_ref st' r = Some e' ∧ extends e e'.
Proof.
  unfold get_ref. intros Hst.
  destruct (st !! ref_doc r) as [t|] eqn:Ht; [|done]. simpl. intros Hget.
  destruct (Forall2_lookup_l _ _ _ _ _ Hst Ht) as (t' & Ht' & Htt).
  rewrite Ht'. simpl. by eapply get_extends.
Qed.

(** X1. A chain of builder calls on a new builder, the value of every
    [add_filter] having a [str] (an [int] of at most 4300 digits has),
    returns without raising, and the children of the entity node are the
    nodes of the calls in call order, nothing merged or dropped, with the
    one filter node at the place of the first [add_filter]. *)
Theorem chain_builds_entity_children (root_entity : string) (cs : list call) :
  forallb call_returns cs = true →
  ∃ b,
    chain cs (__init__ root_entity) = (Ok self, b) ∧
    root_node b = Some (fetch_doc root_entity (entity_children cs)) ∧
    entity_node b =
      Some (Elem "entity" [("name", root_entity)] None None
              (entity_children cs)) ∧
    root_entity_name b = root_entity.
Proof.
  intros Hcs.
  destruct (chain_built cs root_entity [] None _ Hcs (built_init root_entity))
    as (b & Hrun & Hb).
  rewrite foldl_step_children in Hb. cbn [app] in Hb.
  exists b. split; [done|].
  unfold root_node, entity_node.
  rewrite (built_store _ _ _ _ Hb), (built_root _ _ _ _ Hb),
    (built_entity _ _ _ _ Hb).
  repeat split. by destruct (grows_chain cs (__init__ root_entity))
    as (_ & _ & Hn & _); rewrite Hrun in Hn.
Qed.

(** The calls of [main] on [XMLQueryBuilder("account")]. *)
Lemma chain_builds_entity_children_witness :
  ∃ b,
    chain main_calls (__init__ "account") = (Ok self, b) ∧
    root_node b = Some (fetch_doc "account" (entity_children main_calls)) ∧
    entity_node b =
      Some (Elem "entity" [("name", "account")] None None
              (entity_children main_calls)) ∧
    root_entity_name b = "account".
Proof.
  exact (chain_builds_entity_children "account" main_calls eq_refl).
Defined.

(** X2. A chain of builder calls, on any builder and whether it returns or
    raises, changes neither [self.root] nor [self.entity] nor the name,
    and removes, moves or relabels no node: a node a reference resolves to
    before is there afterwards, with the same label, attributes, text and
    tail, and with its children in place, possibly with more after them. *)
Theorem calls_only_append
    (b : XMLQueryBuilder) (cs : list call) (r : ref) (e : Element) :
  get_ref (store b) r = Some e →
  root (chain cs b).2 = root b ∧
  entity (chain cs b).2 = entity b ∧
  root_entity_name (chain cs b).2 = root_entity_name b ∧
  ∃ e', get_ref (store (chain cs b).2) r = Some e' ∧ extends e e'.
Proof.
  intros He. destruct (grows_chain cs b) as (H1 & H2 & H3 & H4).
  repeat split; try done. by eapply get_ref_extends.
Qed.

(** The root of [XMLQueryBuilder("account")] under the calls of [main]. *)
Lemma calls_only_append_witness :
  let b := __init__ "account" in
  let cs := [Select ["name"; "accountid"];
             AddFilter "name" "eq" (PyStr "Contoso");
             AddOrder "name" true] in
  root (chain cs b).2 = root b ∧
  entity (chain cs b).2 = entity b ∧
  root_entity_name (chain cs b).2 = root_entity_name b ∧
  ∃ e', get_ref (store (chain cs b).2) (Ref 0 []) = Some e'
        ∧ extends (fetch_doc "account" []) e'.
Proof.
  exact (calls_only_append (__init__ "account")
           [Select ["name"; "accountid"];
            AddFilter "name" "eq" (PyStr "Contoso");
            AddOrder "name" true]
           (Ref 0 []) (fetch_doc "account" []) eq_refl).
Defined.

(** ** What a call can raise *)

Lemma SubElement_outcome b (parent : option ref) tg a :
  refs_resolve b →
  (∀ r, parent = Some r → is_Some (get_ref (store b) r)) →
  let x := SubElement parent tg a b in
  (raised x = None ∨ (raised x = Some TypeError ∧ parent = None)) ∧
  refs_resolve x.2 ∧ entity x.2 = entity b ∧
  filter_root x.2 = filter_root b ∧ filters x.2 = filters b ∧
  (∀ r, x.1 = Ok r → is_Some (get_ref (store x.2) r)).
Proof.
  intros Hb Hp.
  destruct (SubElement_resolves b parent tg a Hb Hp)
    as (_ & _ & H3 & H4 & H5 & H6 & H7).
  split; [|done]. destruct parent as [r|]; [|by right].
  destruct (Hp r eq_refl) as [e He]. left.
  by rewrite (SubElement_ok b r e _ _ He).
Qed.

Lemma foe_ret {A} (V : Prop) (a : A) : fails_only V (ret a).
Proof. intros b Hb. split; [by left|done]. Qed.

Lemma foe_then {A B} (V : Prop) (m : M A) (k : A → M B) :
  fails_only V m → (∀ a, fails_only V (k a)) → fails_only V (m ≫= k).
Proof.
  intros Hm Hk b Hb. unfold mbind, M_bind, bind.
  destruct (Hm b Hb) as (H1 & H2 & H3). unfold raised in *.
  destruct (m b) as [[x|ex] b1]; simpl in *; [|done].
  destruct (Hk x b1 H2) as (H4 & H5 & H6).
  split; [|split; [done|congruence]].
  destruct H4 as [?|[[? ?]|[? ?]]]; [by left|right; left|by right; right].
  split; [done|congruence].
Qed.

Lemma foe_SubElement_entity {A} (V : Prop) tg a (k : ref → M A) :
  (∀ r, fails_only V (k r)) →
  fails_only V (e ← gets entity; r ← SubElement e tg a; k r).
Proof.
  intros Hk b Hb. unfold mbind, M_bind, bind, gets.
  destruct (SubElement_outcome b (entity b) tg a Hb)
    as (H1 & H2 & H3 & _); [by apply Hb|].
  unfold raised in *.
  destruct (SubElement (entity b) tg a b) as [[r|ex] b1]; simpl in *.
  - destruct (Hk r b1 H2) as (H4 & H5 & H6).
    split; [|split; [done|congruence]].
    destruct H4 as [?|[[? ?]|[? ?]]]; [by left|right; left|by right; right].
    split; [done|congruence].
  - split; [|done]. destruct H1 as [?|?]; [done|by right; left].
Qed.

Lemma foe_modify {A} (V : Prop) (f : XMLQueryBuilder → XMLQueryBuilder)
    (a : A) :
  (∀ b, store (f b) = store b ∧ root (f b) = root b ∧ entity (f b) = entity b
        ∧ filter_root (f b) = filter_root b ∧ filters (f b) = filters b) →
  fails_only V (modify f;; ret a).
Proof.
  intros Hf b Hb. destruct (Hf b) as (? & ? & ? & ? & ?).
  split; [by left|]. split; [by apply (refs_frame b)|done].
Qed.

Lemma foe_for_each {A} (V : Prop) (l : list A) (body : A → M unit) :
  (∀ x, fails_only V (body x)) → fails_only V (for_each l body).
Proof.
  intros Hbody. induction l as [|x l IH]; [apply foe_ret|].
  cbn [for_each]. by apply foe_then.
Qed.

Lemma foe_select (V : Prop) l : fails_only V (select l).
Proof.
  unfold select. apply foe_then; [|intros; apply foe_ret].
  destruct (bool_decide _).
  - apply (foe_SubElement_entity V _ _ (λ _, ret tt)). intros; apply foe_ret.
  - apply foe_for_each. intros x.
    apply (foe_SubElement_entity V _ _ (λ _, modify _)). intros _ b Hb.
    split; [by left|]. split; [by apply (refs_frame b)|done].
Qed.

Lemma foe_link_entity (V : Prop) n a f t k :
  fails_only V (link_entity n a f t k).
Proof.
  unfold link_entity. apply foe_SubElement_entity. intros r.
  by apply foe_modify.
Qed.

Lemma foe_add_order (V : Prop) a d : fails_only V (add_order a d).
Proof.
  unfold add_order. apply foe_SubElement_entity. intros r.
  by apply foe_modify.
Qed.

Lemma foe_add_aggregate (V : Prop) a al ty :
  fails_only V (add_aggregate a al ty).
Proof.
  unfold add_aggregate. apply foe_SubElement_entity. intros r.
  by apply foe_modify.
Qed.

Lemma foe_add_group_by (V : Prop) l : fails_only V (add_group_by l).
Proof.
  unfold add_group_by. apply foe_then; [|intros; apply foe_ret].
  apply foe_for_each. intros x.
  apply (foe_SubElement_entity V _ _ (λ _, ret tt)). intros; apply foe_ret.
Qed.

(** The second half of [add_filter] raises only where [str(value)]
    does. *)
Lemma add_condition_outcome (v : pyvalue)
    (a : string → list (string * string)) :
  ∀ b, refs_resolve b → is_Some (filter_root b) →
    let x := (fr ← get_filter_root;
              s ← eval (py_str v);
              SubElement (Some fr) "condition" (a s);; ret self) b in
    (raised x = None
     ∨ (raised x = Some ValueError ∧ py_str v = Raise ValueError))
    ∧ refs_resolve x.2 ∧ entity x.2 = entity b.
Proof.
  intros b Hb [fr Hfr]. simpl.
  unfold get_filter_root, eval, mbind, M_bind, bind, gets, mret, M_ret, ret.
  rewrite Hfr. destruct (py_str v) as [s|ex] eqn:Hv.
  - destruct (SubElement_outcome b (Some fr) "condition" (a s) Hb)
      as (H1 & H2 & H3 & _).
    { intros ? [= <-]. by apply Hb. }
    unfold raised in *.
    destruct (SubElement (Some fr) "condition" (a s) b) as [[r|ex] b1];
      [by split; [left|]|].
    by destruct H1 as [?|[_ ?]].
  - apply py_str_raises in Hv as ->. split; [by right|done].
Qed.

Lemma foe_add_filter a o v :
  fails_only (call_returns (AddFilter a o v) = false) (add_filter a o v).
Proof.
  intros b Hb.
  set (rest := fr ← get_filter_root;
               s ← eval (py_str v);
               SubElement (Some fr) "condition"
                 [("attribute", a); ("operator", o); ("value", s)];;
               ret self).
  assert (Hno : py_str v = Raise ValueError →
                call_returns (AddFilter a o v) = false)
    by (cbn [call_returns]; by intros ->).
  destruct (decide (filters b = [])) as [Hf|Hf].
  - assert (Hrun : add_filter a o v b =
      match SubElement (entity b) "filter" [("type", "and")] b with
      | (Ok f, b1) =>
          rest (set_filters (filters b1 ++ [f]) (set_filter_root (Some f) b1))
      | (Raise e, b1) => (Raise e, b1)
      end).
    { unfold add_filter, mbind, M_bind, bind, gets, modify. rewrite Hf.
      rewrite bool_decide_eq_true_2 by done.
      by destruct (SubElement _ _ _ _) as [[f|e] b1]. }
    rewrite Hrun. clear Hrun.
    destruct (SubElement_outcome b (entity b) "filter" [("type", "and")] Hb)
      as (H1 & H3 & He & _ & _ & Hr); [by apply Hb|].
    unfold raised in *.
    destruct (SubElement (entity b) "filter" [("type", "and")] b)
      as [[r|ex] b1]; simpl in *.
    + destruct (add_condition_outcome v
                  (λ s, [("attribute", a); ("operator", o); ("value", s)])
                  (set_filters (filters b1 ++ [r])
                     (set_filter_root (Some r) b1)))
        as (H4 & H5 & H6); [|by eexists|].
      { destruct H3 as (? & ? & ? & ?). repeat split; simpl; try done.
        intros ? [= <-]. by apply Hr. }
      split; [|split; [done|by rewrite <- He]].
      destruct H4 as [?|[? ?]]; [by left|right; right; auto].
    + split; [|done]. destruct H1 as [?|?]; [done|by right; left].
  - assert (Hrun : add_filter a o v b = rest b).
    { unfold add_filter, mbind, M_bind, bind, gets.
      by rewrite bool_decide_eq_false_2 by done. }
    rewrite Hrun.
    destruct (add_condition_outcome v
                (λ s, [("attribute", a); ("operator", o); ("value", s)]) b Hb)
      as (H4 & H5 & H6); [by apply Hb|].
    split; [|done].
    destruct H4 as [?|[? ?]]; [by left|right; right; auto].
Qed.

Lemma foe_do_call c : fails_only (call_returns c = false) (do_call c).
Proof.
  destruct c; cbn [do_call];
    auto using foe_select, foe_link_entity, foe_add_filter,
      foe_add_order, foe_add_aggregate, foe_add_group_by.
Qed.

(** X3. On a builder the code can make, a builder call returns, or raises
    [TypeError], or raises [ValueError].  It raises [TypeError] only when
    the entity reference is [None], that is after a document without
    entity element was loaded, and [ValueError] only when it is an
    [add_filter] whose value has no [str] (an [int] of more than 4300
    digits).  It never raises [AttributeError], although [__init__] does
    not set [filter_root]. *)
Theorem calls_fail_only_without_entity
    (fromstring : string → option Element) (b : XMLQueryBuilder) (c : call) :
  reachable fromstring b →
  raised (do_call c b) = None
  ∨ (raised (do_call c b) = Some TypeError ∧ entity b = None)
  ∨ (raised (do_call c b) = Some ValueError ∧ call_returns c = false).
Proof.
  intros Hb%reachable_resolves. by destruct (foe_do_call c b Hb) as (H & _).
Qed.

(** [add_filter] on a builder that has loaded a document without entity. *)
Lemma calls_fail_only_without_entity_witness :
  let b := (add_fetch_xml ET.fromstring "<fetch />" (__init__ "account")).2 in
  let c := AddFilter "name" "eq" (PyStr "Contoso") in
  raised (do_call c b) = None
  ∨ (raised (do_call c b) = Some TypeError ∧ entity b = None)
  ∨ (raised (do_call c b) = Some ValueError ∧ call_returns c = false).
Proof.
  exact (calls_fail_only_without_entity ET.fromstring _
           (AddFilter "name" "eq" (PyStr "Contoso"))
           (reach_add_fetch_xml ET.fromstring "<fetch />" _
              (reach_init ET.fromstring "account"))).
Defined.

(** ** Loading a document *)

(** The loop of [find_descendant] over the children, from index [i]. *)
Lemma find_descendant_unfold (tg : string) (e : Element) :
  find_descendant tg e =
    (fix go (i : nat) (l : list Element) : option (path * Element) :=
       match l with
       | [] => None
       | k :: l' =>
           if String.eqb (tag k) tg then Some ([i], k)
           else match find_descendant tg k with
                | Some (p, d) => Some (i :: p, d)
                | None => go (S i) l'
                end
       end) 0%nat (children e).
Proof. by destruct e. Qed.

Lemma find_descendant_None_iff (tg : string) (e : Element) :
  find_descendant tg e = None ↔ existsb (has_tag tg) (children e) = false.
Proof.
  induction e as [t a x y c IH] using Element_ind.
  rewrite find_descendant_unfold. cbn [children]. generalize 0%nat.
  induction IH as [|k l Hk _ IHl]; intros i; [done|].
  cbn [existsb]. rewrite orb_false_iff, <- (IHl (S i)).
  destruct k as [t' a' x' y' c']. cbn [has_tag tag children] in *.
  destruct (String.eqb t' tg); [by split; [|intros [? ?]]|].
  rewrite orb_false_l, <- Hk.
  destruct (find_descendant tg (Elem t' a' x' y' c')) as [[p d]|].
  - split; [done|by intros [? ?]].
  - by split; [|intros [? ?]].
Qed.

Lemma find_descendant_tag (tg : string) (e : Element) : ∀ p d,
  find_descendant tg e = Some (p, d) → tag d = tg ∧ p ≠ [].
Proof.
  induction e as [t a x y c IH] using Element_ind.
  rewrite find_descendant_unfold. cbn [children]. generalize 0%nat.
  induction IH as [|k l Hk _ IHl]; intros i p d; [done|].
  destruct (String.eqb_spec (tag k) tg) as [Heq|_].
  - by intros [= <- <-].
  - destruct (find_descendant tg k) as [[q d']|] eqn:Hq.
    + intros [= <- <-]. split; [|done]. by eapply Hk.
    + apply IHl.
Qed.

(** X4. When the text parses and the first proper descendant labelled
    [entity] has a [name], [from_fetch_xml] returns a builder whose root is
    the parsed root, whose entity is that descendant and whose name is its
    [name]; the lists of the builder are empty and [filter_root] is not
    set, whatever the document holds. *)
Theorem from_fetch_xml_loads
    (fromstring : string → option Element) (s : string)
    (t e : Element) (p : path) (nm : string) :
  fromstring s = Some t →
  find_descendant "entity" t = Some (p, e) →
  getitem "name" (attrib e) = Some nm →
  ∃ b,
    from_fetch_xml fromstring s = Ok b ∧
    root_node b = Some t ∧
    entity_node b = Some e ∧
    root_entity_name b = nm ∧
    select_attributes b = [] ∧ filters b = [] ∧ filter_root b = None ∧
    linked_entities b = [] ∧ orders b = [] ∧ aggregates b = [].
Proof.
  intros Hs Hf Hn. unfold from_fetch_xml. rewrite Hs, Hf, Hn.
  rewrite (add_fetch_xml_run fromstring s t _ Hs), Hf.
  eexists. split; [reflexivity|]. simpl. repeat split.
  unfold entity_node, get_ref; simpl.
  by rewrite (find_descendant_get _ _ _ _ Hf).
Qed.

(** A document as pretty printers write it, with a filter. *)
Lemma from_fetch_xml_loads_witness :
  let text := "<fetch>
  <entity name='account'>
    <attribute name='name' />
    <filter type='and'><condition attribute='a' operator='eq' value='1' /></filter>
  </entity>
</fetch>" in
  ∃ t e p b,
    ET.fromstring text = Some t ∧
    find_descendant "entity" t = Some (p, e) ∧
    from_fetch_xml ET.fromstring text = Ok b ∧
    root_node b = Some t ∧
    entity_node b = Some e ∧
    root_entity_name b = "account" ∧
    select_attributes b = [] ∧ filters b = [] ∧ filter_root b = None ∧
    linked_entities b = [] ∧ orders b = [] ∧ aggregates b = [].
Proof.
  intros text.
  destruct (ET.fromstring text) as [t|] eqn:Ht; [|by vm_compute in Ht].
  destruct (find_descendant "entity" t) as [[p e]|] eqn:He;
    [|revert He; revert Ht; vm_compute; by intros [= <-]].
  assert (Hn : getitem "name" (attrib e) = Some "account")
    by (revert He; revert Ht; vm_compute; intros [= <-]; by intros [= _ <-]).
  destruct (from_fetch_xml_loads ET.fromstring text t e p "account" Ht He Hn)
    as (b & Hb).
  by exists t, e, p, b.
Defined.

(** X5. When the text parses and the first proper descendant labelled
    [entity] has no [name], [from_fetch_xml] raises [KeyError] and returns
    no builder, although [add_fetch_xml] accepts the same text. *)
Theorem from_fetch_xml_entity_without_name
    (fromstring : string → option Element) (s : string)
    (t e : Element) (p : path) (b : XMLQueryBuilder) :
  fromstring s = Some t →
  find_descendant "entity" t = Some (p, e) →
  getitem "name" (attrib e) = None →
  from_fetch_xml fromstring s = Raise KeyError ∧
  ∃ b', add_fetch_xml fromstring s b = (Ok self, b')
        ∧ entity_node b' = Some e.
Proof.
  intros Hs Hf Hn. unfold from_fetch_xml. rewrite Hs, Hf, Hn.
  split; [done|]. rewrite (add_fetch_xml_run fromstring s t _ Hs), Hf.
  eexists. split; [reflexivity|].
  unfold entity_node, get_ref; simpl.
  rewrite list_lookup_middle by done. simpl.
  by rewrite (find_descendant_get _ _ _ _ Hf).
Qed.

Lemma from_fetch_xml_entity_without_name_witness :
  from_fetch_xml ET.fromstring "<fetch><entity alias='a' /></fetch>"
    = Raise KeyError ∧
  ∃ b', add_fetch_xml ET.fromstring "<fetch><entity alias='a' /></fetch>"
          (__init__ "account") = (Ok self, b')
        ∧ entity_node b' = Some (Elem "entity" [("alias", "a")] None None []).
Proof.
  exact (from_fetch_xml_entity_without_name ET.fromstring
           "<fetch><entity alias='a' /></fetch>"
           (Elem "fetch" [] None None
              [Elem "entity" [("alias", "a")] None None []])
           (Elem "entity" [("alias", "a")] None None []) [0%nat]
           (__init__ "account") eq_refl eq_refl eq_refl).
Defined.

(** X6. For a text that parses, [from_fetch_xml] raises [AttributeError]
    exactly when no proper descendant of the root is labelled [entity]:
    the root itself does not count, so a document whose root is the
    [entity] element is refused. *)
Theorem from_fetch_xml_needs_entity_below_root
    (fromstring : string → option Element) (s : string) (t : Element) :
  fromstring s = Some t →
  (from_fetch_xml fromstring s = Raise AttributeError
   ↔ existsb (has_tag "entity") (children t) = false).
Proof.
  intros Hs. rewrite <- find_descendant_None_iff.
  unfold from_fetch_xml. rewrite Hs.
  destruct (find_descendant "entity" t) as [[p e]|]; [|done].
  split; [|done].
  destruct (getitem "name" (attrib e)) as [nm|]; [|done].
  by rewrite (add_fetch_xml_run fromstring s t _ Hs).
Qed.

(** A document whose root is the entity element. *)
Lemma from_fetch_xml_needs_entity_below_root_witness :
  from_fetch_xml ET.fromstring "<entity name='account'><attribute name='name' /></entity>"
    = Raise AttributeError
   ↔ existsb (has_tag "entity")
       (children (Elem "entity" [("name", "account")] None None
                    [Elem "attribute" [("name", "name")] None None []]))
     = false.
Proof.
  exact (from_fetch_xml_needs_entity_below_root ET.fromstring
           "<entity name='account'><attribute name='name' /></entity>"
           (Elem "entity" [("name", "account")] None None
              [Elem "attribute" [("name", "name")] None None []]) eq_refl).
Defined.

(** X7. [add_fetch_xml] of a text that parses returns, on any builder; the
    root is the parsed root; the entity reference is [None] exactly when no
    proper descendant of the root is labelled [entity], and otherwise
    resolves to a node labelled [entity]; what the builder recorded
    before ([filters], [filter_root], the selected names and the rest)
    stays as it was. *)
Theorem add_fetch_xml_replaces_root_and_entity
    (fromstring : string → option Element) (s : string) (t : Element)
    (b : XMLQueryBuilder) :
  fromstring s = Some t →
  ∃ b',
    add_fetch_xml fromstring s b = (Ok self, b') ∧
    root_node b' = Some t ∧
    (entity b' = None ↔ existsb (has_tag "entity") (children t) = false) ∧
    (∀ r, entity b' = Some r →
          ∃ d, get_ref (store b') r = Some d ∧ tag d = "entity") ∧
    filters b' = filters b ∧ filter_root b' = filter_root b ∧
    select_attributes b' = select_attributes b ∧
    linked_entities b' = linked_entities b ∧ orders b' = orders b ∧
    aggregates b' = aggregates b ∧
    root_entity_name b' = root_entity_name b.
Proof.
  intros Hs. eexists. split; [by apply add_fetch_xml_run|].
  split; [apply get_ref_alloc|]. simpl. rewrite <- find_descendant_None_iff.
  destruct (find_descendant "entity" t) as [[p d]|] eqn:Hf; simpl.
  - split; [done|]. split; [|done]. intros r [= <-]. exists d.
    unfold get_ref; simpl. rewrite list_lookup_middle by done. simpl.
    split; [by apply (find_descendant_get _ _ _ _ Hf)|].
    by apply (find_descendant_tag _ _ _ _ Hf).
  - done.
Qed.

(** A document with the entity two levels down, on a builder that has
    filtered. *)
Lemma add_fetch_xml_replaces_root_and_entity_witness :
  let b := (add_filter "name" "eq" (PyStr "Contoso") (__init__ "account")).2 in
  let t := Elem "fetch" [] None None
             [Elem "wrap" [] None None
                [Elem "entity" [("name", "contact")] None None []]] in
  ∃ b',
    add_fetch_xml ET.fromstring
      "<fetch><wrap><entity name='contact' /></wrap></fetch>" b
      = (Ok self, b') ∧
    root_node b' = Some t ∧
    (entity b' = None ↔ existsb (has_tag "entity") (children t) = false) ∧
    (∀ r, entity b' = Some r →
          ∃ d, get_ref (store b') r = Some d ∧ tag d = "entity") ∧
    filters b' = filters b ∧ filter_root b' = filter_root b ∧
    select_attributes b' = select_attributes b ∧
    linked_entities b' = linked_entities b ∧ orders b' = orders b ∧
    aggregates b' = aggregates b ∧
    root_entity_name b' = root_entity_name b.
Proof.
  exact (add_fetch_xml_replaces_root_and_entity ET.fromstring
           "<fetch><wrap><entity name='contact' /></wrap></fetch>" _ _
           eq_refl).
Defined.

(** ** Text to builder and back *)

(** X8. For a builder made of builder calls, where the value of every
    [add_filter] has a [str] and every string written into the tree is
    made of the code points U+0009, U+000A, U+000D and U+0020 to U+00FF
    only (the code points below 256 that XML 1.0 allows), [from_fetch_xml]
    of the text [to_string] gives returns a new builder with the same name
    and an equal tree, the entity reference on the same node; and
    [to_string] of the new builder gives the same text again. *)
Theorem from_fetch_xml_of_to_string
    (toprettyxml : string → option string)
    (root_entity : string) (cs : list call) :
  xml_safe root_entity = true →
  forallb call_safe cs = true →
  ∃ b s b2,
    chain cs (__init__ root_entity) = (Ok self, b) ∧
    to_string toprettyxml false b = (Ok s, b) ∧
    from_fetch_xml ET.fromstring s = Ok b2 ∧
    root_entity_name b2 = root_entity ∧
    root_node b2 = root_node b ∧
    entity_node b2 = entity_node b ∧
    is_Some (entity_node b) ∧
    to_string toprettyxml false b2 = (Ok s, b2).
Proof.
  intros Hn Hcs.
  destruct (chain_built cs root_entity [] None _ (calls_safe_return cs Hcs)
              (built_init root_entity))
    as (b & Hrun & Hb).
  pose proof (foldl_step_wf cs [] None eq_refl Hcs) as Hwf.
  destruct (foldl step ([], None) cs) as [kids fi]. cbn [fst snd] in *.
  pose proof (fromstring_tostring _ (fetch_doc_wf _ _ Hn Hwf)) as Hrt.
  assert (Hroot : root_node b = Some (fetch_doc root_entity kids)).
  { unfold root_node.
    by rewrite (built_store _ _ _ _ Hb), (built_root _ _ _ _ Hb). }
  assert (Hent : entity_node b
                 = Some (Elem "entity" [("name", root_entity)] None None kids)).
  { unfold entity_node.
    by rewrite (built_store _ _ _ _ Hb), (built_entity _ _ _ _ Hb). }
  exists b, (tostring (fetch_doc root_entity kids)). eexists.
  split; [done|]. split.
  { unfold to_string. run_M. fold (root_node b). by rewrite Hroot. }
  split.
  { unfold from_fetch_xml. rewrite Hrt. cbn [find_descendant fetch_doc
      children tag String.eqb Ascii.eqb Bool.eqb attrib getitem].
    by rewrite (add_fetch_xml_run ET.fromstring _ _ _ Hrt). }
  rewrite Hroot, Hent. by repeat split.
Qed.

(** The calls of [main]. *)
Lemma from_fetch_xml_of_to_string_witness :
  ∃ b s b2,
    chain main_calls (__init__ "account") = (Ok self, b) ∧
    to_string (λ _, None) false b = (Ok s, b) ∧
    from_fetch_xml ET.fromstring s = Ok b2 ∧
    root_entity_name b2 = "account" ∧
    root_node b2 = root_node b ∧
    entity_node b2 = entity_node b ∧
    is_Some (entity_node b) ∧
    to_string (λ _, None) false b2 = (Ok s, b2).
Proof.
  exact (from_fetch_xml_of_to_string (λ _, None) "account" main_calls
           eq_refl eq_refl).
Defined.

(** X9. Two chains of builder calls on new builders, where the value of
    every [add_filter] has a [str] and every string written into the tree
    is made of the code points U+0009, U+000A, U+000D and U+0020 to U+00FF
    only (the code points below 256 that XML 1.0 allows), that give the
    same text with [to_string(pretty=False)] have built the same tree: the
    text determines the tree. *)
Theorem to_string_determines_tree
    (toprettyxml : string → option string)
    (n1 n2 : string) (cs1 cs2 : list call) (s : string) :
  xml_safe n1 = true → forallb call_safe cs1 = true →
  xml_safe n2 = true → forallb call_safe cs2 = true →
  text_of_chain toprettyxml n1 cs1 = Ok s →
  text_of_chain toprettyxml n2 cs2 = Ok s →
  n1 = n2 ∧ entity_children cs1 = entity_children cs2.
Proof.
  intros Hn1 Hc1 Hn2 Hc2.
  assert (Hrun : ∀ nm cs, xml_safe nm = true → forallb call_safe cs = true →
    text_of_chain toprettyxml nm cs
      = Ok (tostring (fetch_doc nm (entity_children cs)))
    ∧ wf_elem (fetch_doc nm (entity_children cs)) = true).
  { intros nm cs Hn Hcs.
    destruct (chain_built cs nm [] None _ (calls_safe_return cs Hcs)
                (built_init nm)) as (b & Hr & Hb).
    pose proof (foldl_step_wf cs [] None eq_refl Hcs) as Hwf.
    rewrite foldl_step_children in Hb, Hwf. cbn [app] in Hb, Hwf.
    split; [|by apply fetch_doc_wf].
    unfold text_of_chain, mbind, M_bind, bind. rewrite Hr.
    unfold to_string. run_M.
    by rewrite (built_store _ _ _ _ Hb), (built_root _ _ _ _ Hb). }
  destruct (Hrun n1 cs1 Hn1 Hc1) as [-> Hw1].
  destruct (Hrun n2 cs2 Hn2 Hc2) as [-> Hw2].
  intros E1 E2.
  assert (Heq : tostring (fetch_doc n1 (entity_children cs1))
                = tostring (fetch_doc n2 (entity_children cs2)))
    by congruence.
  pose proof (fromstring_tostring _ Hw1) as H1.
  pose proof (fromstring_tostring _ Hw2) as H2.
  rewrite <- Heq, H1 in H2. unfold fetch_doc in H2.
  by injection H2 as -> ->.
Qed.

(** Two ways to select two names. *)
Lemma to_string_determines_tree_witness :
  "account" = "account" ∧
  entity_children [Select ["name"; "accountid"]]
    = entity_children [Select ["name"]; Select ["accountid"]].
Proof.
  exact (to_string_determines_tree (λ _, None) "account" "account"
           [Select ["name"; "accountid"]]
           [Select ["name"]; Select ["accountid"]]
           _ eq_refl eq_refl eq_refl eq_refl eq_refl eq_refl).
Defined.

(** ** The filter node *)

Lemma alter_at_app (g : Element → Element) (p q : path) (t : Element) :
  alter_at g (p ++ q) t = alter_at (alter_at g q) p t.
Proof.
  revert t. induction p as [|i p IH]; intros [tg a x y c]; simpl; [done|].
  f_equal. apply list_alter_ext; [|done]. intros k _. apply IH.
Qed.

Lemma get_app (p q : path) (t : Element) :
  get (p ++ q) t = get p t ≫= get q.
Proof.
  revert t. induction p as [|i p IH]; intros t; simpl; [done|].
  destruct (children t !! i) as [k|]; simpl; [apply IH|done].
Qed.

(** The node at [r] after a change below it, at [r] extended by [q]. *)
Lemma get_ref_alter_below (g : Element → Element) (d : nat) (p q : path)
    (st : list Element) :
  get_ref (alter_ref g (Ref d (p ++ q)) st) (Ref d p)
  = alter_at g q <$> get_ref st (Ref d p).
Proof.
  unfold get_ref, alter_ref; simpl. rewrite list_lookup_alter_eq.
  destruct (st !! d) as [t|]; simpl; [|done].
  by rewrite alter_at_app, get_alter_at.
Qed.

(** The first [add_filter] of a builder, whatever [str(value)] does. *)
Lemma first_add_filter_run
    (b : XMLQueryBuilder) (r : ref) (e : Element)
    (a o : string) (v : pyvalue) :
  entity b = Some r →
  get_ref (store b) r = Some e →
  filters b = [] →
  ∃ b',
    add_filter a o v b = (outcome (AddFilter a o v), b') ∧
    entity_node b' =
      Some (Elem (tag e) (attrib e) (text e) (tail e)
              (children e ++ [filter_node (condition_of a o v)])) ∧
    filter_root b' = Some (Ref (ref_doc r) (ref_path r ++ [length (children e)])) ∧
    filters b' = [Ref (ref_doc r) (ref_path r ++ [length (children e)])].
Proof.
  intros He Hn Hf. destruct r as [d p]. cbn [ref_doc ref_path].
  set (fr := Ref d (p ++ [length (children e)])).
  set (b1 := with_child b (Ref d p) "filter" [("type", "and")]).
  set (b2 := set_filters (filters b1 ++ [fr]) (set_filter_root (Some fr) b1)).
  assert (Hfr : get_ref (store b2) fr
                = Some (new_element "filter" [("type", "and")])).
  { unfold b2, b1, with_child, fr, get_ref, alter_ref in *; simpl in *.
    rewrite list_lookup_alter_eq.
    destruct (store b !! d) as [t|]; simpl in *; [|done].
    rewrite get_app, get_alter_at, Hn. destruct e; simpl.
    by rewrite list_lookup_middle. }
  assert (Hrun : add_filter a o v b =
            (s ← eval (py_str v);
             SubElement (Some fr) "condition"
               [("attribute", a); ("operator", o); ("value", s)];;
             ret self) b2).
  { unfold add_filter, get_filter_root, mbind, M_bind, bind, gets, modify,
      mret, M_ret, ret.
    rewrite Hf, bool_decide_eq_true_2 by done.
    by rewrite He, (SubElement_ok b (Ref d p) e _ _ Hn). }
  rewrite Hrun. clear Hrun.
  unfold eval, mbind, M_bind, bind, mret, M_ret, ret.
  cbn [outcome]. unfold condition_of.
  destruct (py_str v) as [s|ex].
  - exists (with_child b2 fr "condition"
              [("attribute", a); ("operator", o); ("value", s)]).
    split; [|split; [|split]].
    + by rewrite (SubElement_ok b2 fr _ _ _ Hfr).
    + unfold entity_node, with_child; simpl. rewrite He; simpl.
      unfold fr. rewrite get_ref_alter_below.
      rewrite get_ref_alter_ref, Hn. destruct e as [t' a' x y c]; simpl.
      by rewrite alter_last.
    + done.
    + simpl. by rewrite Hf.
  - exists b2. split; [done|]. split; [|split].
    + unfold entity_node; simpl. rewrite He; simpl.
      rewrite get_ref_alter_ref, Hn. by destruct e.
    + done.
    + simpl. by rewrite Hf.
Qed.

(** X10. The first [add_filter] of a builder ([filters] is empty) whose
    entity reference resolves, with a value that has a [str], returns and
    appends to the children of the entity node a new [filter] node of type
    [and] with the one condition, whatever the entity node holds already:
    a filter that a loaded document brings is not reused. *)
Theorem first_add_filter_appends_filter_node
    (b : XMLQueryBuilder) (r : ref) (e : Element)
    (a o : string) (v : pyvalue) (s : string) :
  entity b = Some r →
  get_ref (store b) r = Some e →
  filters b = [] →
  py_str v = Ok s →
  ∃ b',
    add_filter a o v b = (Ok self, b') ∧
    entity_node b' =
      Some (Elem (tag e) (attrib e) (text e) (tail e)
              (children e ++ [filter_node [condition_node a o s]])) ∧
    filter_root b' = Some (Ref (ref_doc r) (ref_path r ++ [length (children e)])) ∧
    filters b' = [Ref (ref_doc r) (ref_path r ++ [length (children e)])].
Proof.
  intros He Hn Hf Hv.
  destruct (first_add_filter_run b r e a o v He Hn Hf) as (b' & Hrun & Hb').
  exists b'. revert Hrun Hb'. cbn [outcome]. unfold condition_of.
  by rewrite Hv.
Qed.

(** [add_filter] on a loaded document that has a filter of type [or]. *)
Lemma first_add_filter_appends_filter_node_witness :
  let b := (add_fetch_xml ET.fromstring
              "<fetch><entity name='a'><filter type='or' /></entity></fetch>"
              (__init__ "a")).2 in
  ∃ b',
    add_filter "name" "eq" (PyStr "Contoso") b = (Ok self, b') ∧
    entity_node b' =
      Some (Elem "entity" [("name", "a")] None None
              ([Elem "filter" [("type", "or")] None None []]
               ++ [filter_node [condition_node "name" "eq" "Contoso"]])) ∧
    filter_root b' = Some (Ref 1 ([0%nat] ++ [1%nat])) ∧
    filters b' = [Ref 1 ([0%nat] ++ [1%nat])].
Proof.
  exact (first_add_filter_appends_filter_node
           (add_fetch_xml ET.fromstring
              "<fetch><entity name='a'><filter type='or' /></entity></fetch>"
              (__init__ "a")).2
           (Ref 1 [0%nat])
           (Elem "entity" [("name", "a")] None None
              [Elem "filter" [("type", "or")] None None []])
           "name" "eq" (PyStr "Contoso") "Contoso"
           eq_refl eq_refl eq_refl eq_refl).
Defined.

(** X14. The first [add_filter] of a builder whose entity reference
    resolves, with a value whose [str] raises (an [int] of more than 4300
    digits): the call raises that exception, and the object is changed all
    the same: an empty [filter] node of type [and] has been appended to
    the children of the entity node, and [filter_root] and [filters] name
    it, so the next [add_filter] fills that node. *)
Theorem first_add_filter_without_str
    (b : XMLQueryBuilder) (r : ref) (e : Element)
    (a o : string) (v : pyvalue) (ex : exn) :
  entity b = Some r →
  get_ref (store b) r = Some e →
  filters b = [] →
  py_str v = Raise ex →
  ∃ b',
    add_filter a o v b = (Raise ex, b') ∧
    ex = ValueError ∧
    entity_node b' =
      Some (Elem (tag e) (attrib e) (text e) (tail e)
              (children e ++ [filter_node []])) ∧
    filter_root b' = Some (Ref (ref_doc r) (ref_path r ++ [length (children e)])) ∧
    filters b' = [Ref (ref_doc r) (ref_path r ++ [length (children e)])].
Proof.
  intros He Hn Hf Hv.
  destruct (first_add_filter_run b r e a o v He Hn Hf) as (b' & Hrun & Hb').
  exists b'. revert Hrun Hb'. cbn [outcome]. unfold condition_of.
  rewrite Hv. intros Hrun Hb'. split; [done|].
  split; [by apply (py_str_raises v)|done].
Qed.

(** [XMLQueryBuilder("account").add_filter("revenue", "gt", 2**14400)]. *)
Lemma first_add_filter_without_str_witness :
  ∃ b',
    add_filter "revenue" "gt" (PyInt (2 ^ 14400)) (__init__ "account")
      = (Raise ValueError, b') ∧
    ValueError = ValueError ∧
    entity_node b' =
      Some (Elem (tag (new_element "entity" [("name", "account")]))
              (attrib (new_element "entity" [("name", "account")]))
              (text (new_element "entity" [("name", "account")]))
              (tail (new_element "entity" [("name", "account")]))
              (children (new_element "entity" [("name", "account")])
               ++ [filter_node []])) ∧
    filter_root b' =
      Some (Ref 0 ([0%nat] ++
                   [length (children
                              (new_element "entity" [("name", "account")]))])) ∧
    filters b' =
      [Ref 0 ([0%nat] ++
              [length (children
                         (new_element "entity" [("name", "account")]))])].
Proof.
  exact (first_add_filter_without_str (__init__ "account") (Ref 0 [0%nat])
           (new_element "entity" [("name", "account")])
           "revenue" "gt" (PyInt (2 ^ 14400)) ValueError
           eq_refl eq_refl eq_refl
           ltac:(vm_compute; reflexivity)).
Defined.

(** X11. Once a builder the code can make has a filter node ([filters] is
    not empty), [add_filter], with a value that has a [str], after an
    [add_fetch_xml] that succeeded returns and appends the condition to
    the node [filter_root] names, which is a node of an abandoned
    document, not of the loaded one; the loaded tree stays as it is, and
    the condition is absent from what [to_string] writes. *)
Theorem add_filter_after_load_is_not_in_the_tree
    (fromstring : string → option Element)
    (toprettyxml : string → option string)
    (b : XMLQueryBuilder) (s : string) (t : Element)
    (a o : string) (v : pyvalue) (sv : string) :
  reachable fromstring b →
  filters b ≠ [] →
  fromstring s = Some t →
  py_str v = Ok sv →
  ∃ fr f b1 b2,
    filter_root b = Some fr ∧
    get_ref (store b) fr = Some f ∧
    add_fetch_xml fromstring s b = (Ok self, b1) ∧
    add_filter a o v b1 = (Ok self, b2) ∧
    filter_root b2 = Some fr ∧
    get_ref (store b2) fr = Some (append f (condition_node a o sv)) ∧
    ref_doc fr ≠ ref_doc (root b2) ∧
    root_node b2 = Some t ∧
    to_string toprettyxml false b2 = (Ok (tostring t), b2).
Proof.
  intros Hb%reachable_resolves Hf Hs Hv.
  destruct Hb as (_ & _ & Hfr & Hset).
  destruct (Hset Hf) as [fr Hfr'].
  destruct (Hfr fr Hfr') as [f Hget].
  exists fr, f. eexists _, _. split; [done|]. split; [done|].
  split; [by apply add_fetch_xml_run|].
  set (b1 := set_entity _ _).
  set (cond := [("attribute", a); ("operator", o); ("value", sv)]).
  assert (Hget1 : get_ref (store b1) fr = Some f).
  { unfold b1, get_ref in *; simpl.
    destruct (store b !! ref_doc fr) as [x|] eqn:Hx; [|done].
    by rewrite (lookup_app_l_Some _ _ _ _ Hx). }
  assert (Hlt : (ref_doc fr < length (store b))%nat).
  { unfold get_ref in Hget.
    destruct (store b !! ref_doc fr) as [x|] eqn:Hx; [|done].
    by apply lookup_lt_Some in Hx. }
  assert (Hroot : root_node (with_child b1 fr "condition" cond) = Some t).
  { unfold root_node, with_child, get_ref, alter_ref in *; simpl in *.
    rewrite list_lookup_alter_ne by lia.
    by rewrite list_lookup_middle. }
  split.
  { unfold add_filter, get_filter_root, eval, mbind, M_bind, bind, gets,
      mret, M_ret, ret.
    rewrite bool_decide_eq_false_2 by done.
    change (filter_root b1) with (filter_root b). rewrite Hfr', Hv.
    by rewrite (SubElement_ok b1 fr f _ _ Hget1). }
  split; [done|]. split; [|split; [|split; [exact Hroot|]]].
  - unfold with_child. cbn [store set_store].
    rewrite get_ref_alter_ref. fold b1. by rewrite Hget1.
  - simpl. lia.
  - unfold to_string. run_M.
    change (get_ref _ _) with
      (root_node (with_child b1 fr "condition" cond)).
    by rewrite Hroot.
Qed.

(** A builder that has filtered, a document, and a second filter. *)
Lemma add_filter_after_load_is_not_in_the_tree_witness :
  let b := (add_filter "name" "eq" (PyStr "Contoso") (__init__ "account")).2 in
  let t := fetch_doc "account" [] in
  ∃ fr f b1 b2,
    filter_root b = Some fr ∧
    get_ref (store b) fr = Some f ∧
    add_fetch_xml ET.fromstring "<fetch><entity name='account' /></fetch>" b
      = (Ok self, b1) ∧
    add_filter "statecode" "eq" (PyInt 0) b1 = (Ok self, b2) ∧
    filter_root b2 = Some fr ∧
    get_ref (store b2) fr
      = Some (append f (condition_node "statecode" "eq" "0")) ∧
    ref_doc fr ≠ ref_doc (root b2) ∧
    root_node b2 = Some t ∧
    to_string (λ _, None) false b2 = (Ok (tostring t), b2).
Proof.
  exact (add_filter_after_load_is_not_in_the_tree ET.fromstring (λ _, None)
           (add_filter "name" "eq" (PyStr "Contoso") (__init__ "account")).2
           "<fetch><entity name='account' /></fetch>"
           (fetch_doc "account" []) "statecode" "eq" (PyInt 0) "0"
           (reach_call ET.fromstring
              (AddFilter "name" "eq" (PyStr "Contoso")) (__init__ "account")
              (reach_init ET.fromstring "account"))
           ltac:(discriminate) eq_refl eq_refl).
Defined.

(** ** [select] of names *)

(** [select("ALL", "name")]: the sentinel beside another name is a name. *)
Lemma select_names_run_witness :
  ∃ b',
    select ["ALL"; "name"] (__init__ "account") = (Ok self, b') ∧
    entity_node b' =
      Some (Elem "entity" [("name", "account")] None None
              ([] ++ List.map (λ n, Elem "attribute" [("name", n)] None None [])
                       ["ALL"; "name"])) ∧
    select_attributes b' =
      [] ++ concat (repeat ["ALL"; "name"] 2).
Proof.
  exact (select_names_run ["ALL"; "name"] (__init__ "account")
           (Ref 0 [0%nat])
           (Elem "entity" [("name", "account")] None None [])
           ltac:(discriminate) eq_refl eq_refl).
Defined.

(** ** Builder calls on any builder that has an entity node *)

Section Extended.

Variables (r : ref) (e : Element).

Lemma extended_frame kids fi (b b' : XMLQueryBuilder) :
  store b' = store b → entity b' = entity b →
  filter_root b' = filter_root b → filters b' = filters b →
  extended r e kids fi b → extended r e kids fi b'.
Proof using Type.
  intros Hs He Hfr Hf [? ? ?].
  split; [congruence..|]. destruct fi; by rewrite ?Hfr, Hf.
Qed.

Lemma extended_SubElement_entity kids fi b tg a :
  extended r e kids fi b →
  ∃ b',
    SubElement (Some r) tg a b
      = (Ok (Ref (ref_doc r)
               (ref_path r ++ [(length (children e) + length kids)%nat])), b') ∧
    extended r e (kids ++ [new_element tg a]) fi b' ∧
    root b' = root b.
Proof using Type.
  intros [He Hn Hf]. eexists. split.
  { rewrite (SubElement_ok b r _ _ _ Hn). simpl. by rewrite length_app. }
  split; [|done]. split; simpl; [done| |].
  - rewrite get_ref_alter_ref, Hn. simpl. by rewrite <- app_assoc.
  - destruct fi as [i|]; [|done].
    destruct Hf as (? & ? & [x Hx]). repeat split; [done..|].
    exists x. by apply lookup_app_l_Some.
Qed.

Lemma extended_SubElement_filter kids i b tg a :
  extended r e kids (Some i) b →
  ∃ b' r',
    SubElement
      (Some (Ref (ref_doc r) (ref_path r ++ [(length (children e) + i)%nat])))
      tg a b = (Ok r', b') ∧
    extended r e (alter (λ f, append f (new_element tg a)) i kids) (Some i) b' ∧
    root b' = root b.
Proof using Type.
  intros [He Hn (Hf & Hfr & [x Hx])].
  set (fr := Ref (ref_doc r) (ref_path r ++ [(length (children e) + i)%nat])).
  assert (Hget : get_ref (store b) fr = Some x).
  { unfold fr, get_ref in *; simpl in *.
    destruct (store b !! ref_doc r) as [t|]; simpl in *; [|done].
    rewrite get_app, Hn. simpl. rewrite lookup_app_r by lia.
    replace (length (children e) + i - length (children e))%nat with i
      by lia.
    by rewrite Hx. }
  eexists _, _. split; [by rewrite (SubElement_ok b fr x _ _ Hget)|].
  split; [|done]. split; simpl; [done| |].
  - destruct r as [d p]. unfold fr. simpl. rewrite get_ref_alter_below, Hn.
    simpl. f_equal. f_equal. by rewrite alter_app_r.
  - repeat split; [done..|]. rewrite list_lookup_alter_eq, Hx. by eexists.
Qed.

Lemma for_each_extended tg (mk : string → list (string * string))
    (post : M unit) :
  (∀ kids fi b, extended r e kids fi b →
     ∃ b', post b = (Ok tt, b') ∧ extended r e kids fi b' ∧ root b' = root b) →
  ∀ l kids fi b, extended r e kids fi b →
    ∃ b',
      for_each l (λ attr, x ← gets entity; SubElement x tg (mk attr);; post) b
        = (Ok tt, b') ∧
      extended r e (kids ++ List.map (λ n, new_element tg (mk n)) l) fi b' ∧
      root b' = root b.
Proof using Type.
  intros Hpost. induction l as [|x l IH]; intros kids fi b Hb.
  - exists b. split; [done|]. by rewrite app_nil_r.
  - destruct (extended_SubElement_entity kids fi b tg (mk x) Hb)
      as (b1 & Hsub & Hb1 & Hr1).
    destruct (Hpost _ _ _ Hb1) as (b2 & Hp & Hb2 & Hr2).
    destruct (IH _ _ _ Hb2) as (b3 & Hl & Hb3 & Hr3).
    exists b3. split; [|split; [|congruence]].
    + cbn [for_each]. unfold mbind, M_bind, bind, gets in *.
      rewrite (extended_entity _ _ _ _ _ Hb), Hsub, Hp. exact Hl.
    + cbn [List.map]. by rewrite cons_middle, app_assoc.
Qed.

Lemma do_call_extended kids fi b c :
  extended r e kids fi b →
  ∃ b',
    do_call c b = (outcome c, b') ∧
    extended r e (step (kids, fi) c).1 (step (kids, fi) c).2 b' ∧
    root b' = root b.
Proof using Type.
  intros Hb. pose proof (extended_entity _ _ _ _ _ Hb) as He.
  destruct c as [l|n a f t k|a o v|a d|a al ty|l]; cbn [do_call outcome].
  - unfold select. cbn [step appended fst snd].
    destruct (bool_decide (l = ["ALL"])).
    + destruct (extended_SubElement_entity kids fi b "all-attributes" [] Hb)
        as (b1 & Hsub & Hb1 & Hr1).
      exists b1. split; [|by destruct fi].
      unfold mbind, M_bind, bind, gets. by rewrite He, Hsub.
    + destruct (for_each_extended "attribute" (λ n, [("name", n)])
                  (modify (λ b, set_select_attributes
                                  (select_attributes b ++ l) b)))
        with (l := l) (kids := kids) (fi := fi) (b := b)
        as (b1 & Hl & Hb1 & Hr1); [|done|].
      { intros ? ? b0 H0. eexists. split; [reflexivity|].
        split; [by apply (extended_frame _ _ b0)|done]. }
      exists b1. split; [|by destruct fi].
      unfold mbind, M_bind, bind in *. by rewrite Hl.
  - destruct (extended_SubElement_entity kids fi b "link-entity"
                [("name", n); ("alias", if_else a n);
                 ("from", if_else f (n +:+ "id"));
                 ("to", if_else t (n +:+ "id"));
                 ("link-type", if_else k "inner")] Hb)
      as (b1 & Hsub & Hb1 & Hr1).
    eexists. split.
    + unfold link_entity, mbind, M_bind, bind, gets. rewrite He, Hsub.
      reflexivity.
    + cbn [step appended fst snd].
      split; [|done]. destruct fi; by apply (extended_frame _ _ b1).
  - unfold add_filter. cbn [step fst snd]. destruct fi as [i|].
    + destruct (extended_filter _ _ _ _ _ Hb) as (Hf & Hfr & _).
      destruct (py_str v) as [s|ex].
      * destruct (extended_SubElement_filter kids i b "condition"
                    [("attribute", a); ("operator", o); ("value", s)] Hb)
          as (b1 & r1 & Hsub & Hb1 & Hr1).
        exists b1. split; [|done].
        unfold get_filter_root, eval, mbind, M_bind, bind, gets, mret, M_ret,
          ret.
        rewrite bool_decide_eq_false_2 by done. rewrite Hfr.
        by rewrite Hsub.
      * exists b. split; [|done].
        unfold get_filter_root, eval, mbind, M_bind, bind, gets, mret, M_ret,
          ret.
        rewrite bool_decide_eq_false_2 by done. by rewrite Hfr.
    + pose proof (extended_filter _ _ _ _ _ Hb) as Hf. simpl in Hf.
      destruct (extended_SubElement_entity kids None b "filter"
                  [("type", "and")] Hb)
        as (b1 & Hsub & Hb1 & Hr1).
      set (fr := Ref (ref_doc r)
                   (ref_path r ++ [(length (children e) + length kids)%nat]))
        in *.
      set (b2 := set_filters (filters (set_filter_root (Some fr) b1) ++ [fr])
                   (set_filter_root (Some fr) b1)).
      assert (Hb2 : extended r e
                      (kids ++ [new_element "filter" [("type", "and")]])
                      (Some (length kids)) b2).
      { destruct Hb1 as [He1 Hn1 _].
        split; simpl; [done..|]. split; [by destruct (filters b1)|].
        split; [done|]. rewrite list_lookup_middle by done. by eexists. }
      unfold condition_of. destruct (py_str v) as [s|ex].
      * destruct (extended_SubElement_filter _ _ b2 "condition"
                    [("attribute", a); ("operator", o); ("value", s)] Hb2)
          as (b3 & r3 & Hsub3 & Hb3 & Hr3).
        exists b3. split; [|split].
        -- unfold get_filter_root, eval, mbind, M_bind, bind, gets, modify,
             mret, M_ret, ret.
           rewrite Hf. rewrite bool_decide_eq_true_2 by done.
           rewrite He, Hsub. simpl.
           by replace (SubElement _ _ _ _) with (Ok r3, b3)
             by (symmetry; exact Hsub3).
        -- rewrite alter_last in Hb3. exact Hb3.
        -- rewrite Hr3. exact Hr1.
      * exists b2. split; [|split; [exact Hb2|exact Hr1]].
        unfold get_filter_root, eval, mbind, M_bind, bind, gets, modify,
          mret, M_ret, ret.
        rewrite Hf. rewrite bool_decide_eq_true_2 by done.
        by rewrite He, Hsub.
  - destruct (extended_SubElement_entity kids fi b "order"
                [("attribute", a);
                 ("descending", if d then "true" else "false")] Hb)
      as (b1 & Hsub & Hb1 & Hr1).
    eexists. split.
    + unfold add_order, mbind, M_bind, bind, gets. rewrite He, Hsub.
      reflexivity.
    + cbn [step appended fst snd].
      split; [|done]. destruct fi; by apply (extended_frame _ _ b1).
  - destruct (extended_SubElement_entity kids fi b "attribute"
                [("name", a); ("alias", al); ("aggregate", ty)] Hb)
      as (b1 & Hsub & Hb1 & Hr1).
    eexists. split.
    + unfold add_aggregate, mbind, M_bind, bind, gets. rewrite He, Hsub.
      reflexivity.
    + cbn [step appended fst snd].
      split; [|done]. destruct fi; by apply (extended_frame _ _ b1).
  - destruct (for_each_extended "attribute"
                (λ n, [("name", n); ("groupby", "true")]) (ret tt))
      with (l := l) (kids := kids) (fi := fi) (b := b)
      as (b1 & Hl & Hb1 & Hr1); [by eauto|done|].
    exists b1. split; [|by destruct fi].
    unfold add_group_by, mbind, M_bind, bind in *. by rewrite Hl.
Qed.

Lemma chain_extended cs : ∀ kids fi b,
  forallb call_returns cs = true →
  extended r e kids fi b →
  ∃ b',
    chain cs b = (Ok self, b') ∧
    extended r e (foldl step (kids, fi) cs).1 (foldl step (kids, fi) cs).2 b' ∧
    root b' = root b.
Proof using Type.
  induction cs as [|c cs IH]; intros kids fi b Hcs Hb; [by exists b|].
  cbn [forallb] in Hcs. apply andb_true_iff in Hcs as [Hc Hcs].
  destruct (do_call_extended kids fi b c Hb) as (b1 & Hrun & Hb1 & Hr1).
  rewrite (outcome_returns c Hc) in Hrun.
  destruct (IH _ _ _ Hcs Hb1) as (b2 & Hrest & Hb2 & Hr2).
  exists b2. split; [|split; [|congruence]].
  - cbn [chain]. unfold mbind, M_bind, bind. by rewrite Hrun.
  - cbn [foldl]. by destruct (step (kids, fi) c).
Qed.

End Extended.

(** A builder whose entity reference resolves and that has no filter node
    of its own yet is [extended] by nothing. *)
Lemma extended_start (b : XMLQueryBuilder) (r : ref) (e : Element) :
  entity b = Some r → get_ref (store b) r = Some e → filters b = [] →
  extended r e [] None b.
Proof.
  intros He Hn Hf. split; [done| |done]. rewrite app_nil_r, Hn. by destruct e.
Qed.




(** ** Theorems on chains of builder calls: the filter node *)




(** A loaded document that has a filter already: [add_filter] makes a
    second node labelled [filter] under the entity node. *)
Lemma add_filter_on_loaded_filter :
  ∃ b b',
    from_fetch_xml ET.fromstring
      "<fetch><entity name='account'><filter type='or' /></entity></fetch>"
      = Ok b ∧
    add_filter "name" "eq" (PyStr "Contoso") b = (Ok self, b') ∧
    (children_tagged "filter" <$> entity_node b') =
      Some [Elem "filter" [("type", "or")] None None [];
            filter_node [condition_node "name" "eq" "Contoso"]].
Proof.
  set (text := "<fetch><entity name='account'><filter type='or' /></entity></fetch>").
  assert (H : ∃ b, from_fetch_xml ET.fromstring text = Ok b)
    by (vm_compute; by eexists).
  destruct H as [b Hb]. exists b.
  exists (add_filter "name" "eq" (PyStr "Contoso") b).2.
  split; [done|]. revert Hb. vm_compute. by intros [= <-].
Qed.

(** X12. On any builder whose entity reference resolves and that has no
    filter node of its own yet, a builder made by [from_fetch_xml]
    included, a chain of builder calls in which the value of every
    [add_filter] has a [str] returns, and the children of the entity node
    are those it had, followed by the nodes of the calls in call order,
    with the one new filter node at the place of the first
    [add_filter]. *)
Theorem chain_extends_entity_node
    (b : XMLQueryBuilder) (r : ref) (e : Element) (cs : list call) :
  entity b = Some r →
  get_ref (store b) r = Some e →
  filters b = [] →
  forallb call_returns cs = true →
  ∃ b',
    chain cs b = (Ok self, b') ∧
    entity_node b' =
      Some (Elem (tag e) (attrib e) (text e) (tail e)
              (children e ++ entity_children cs)) ∧
    entity b' = entity b ∧ root b' = root b.
Proof.
  intros He Hn Hf Hcs.
  destruct (chain_extended r e cs [] None b Hcs (extended_start b r e He Hn Hf))
    as (b' & Hrun & Hb' & Hr).
  rewrite foldl_step_children in Hb'. cbn [app] in Hb'.
  exists b'. split; [done|]. split; [|split; [|done]].
  - unfold entity_node. rewrite (extended_entity _ _ _ _ _ Hb'). simpl.
    exact (extended_node _ _ _ _ _ Hb').
  - by rewrite (extended_entity _ _ _ _ _ Hb').
Qed.

(** The calls of [main] on a loaded document that has a filter. *)
Lemma chain_extends_entity_node_witness :
  let b := (add_fetch_xml ET.fromstring
              "<fetch><entity name='a'><filter type='or' /></entity></fetch>"
              (__init__ "a")).2 in
  ∃ b',
    chain main_calls b = (Ok self, b') ∧
    entity_node b' =
      Some (Elem "entity" [("name", "a")] None None
              ([Elem "filter" [("type", "or")] None None []]
               ++ entity_children main_calls)) ∧
    entity b' = entity b ∧ root b' = root b.
Proof.
  exact (chain_extends_entity_node
           (add_fetch_xml ET.fromstring
              "<fetch><entity name='a'><filter type='or' /></entity></fetch>"
              (__init__ "a")).2
           (Ref 1 [0%nat])
           (Elem "entity" [("name", "a")] None None
              [Elem "filter" [("type", "or")] None None []])
           main_calls eq_refl eq_refl eq_refl eq_refl).
Defined.
